(** * The iChip 2128 command engine and the serial console

    A shallow embedding of [ichip_2128.cpp] (class [ICHIPWIFI]) and of
    [SerialConsole.cpp] (class [SerialConsole]), with the properties of the
    command queue, the protocol state, the socket send formatter and the
    console line interpreter.

    Conventions.  An Arduino [String] is a [string]; a [char] array is a
    [list ascii] of the array's size, read with [!!] and written with
    [<[i:=c]>]; indices and ring pointers, which never go negative nor
    overflow, are [nat]; other integers are [Z].  Calls into collaborators
    whose code is elsewhere (logger, device manager, preference store, memory
    cache, digital outputs) are recorded, in order, as events. *)

From Stdlib Require Import ZArith Lia List Ascii String Bool.
From stdpp Require Import base list strings.

Local Open Scope Z_scope.
Local Open Scope nat_scope.

(** ** Characters and C strings *)

Definition NUL : ascii := ascii_of_nat 0.
Definition LF : ascii := ascii_of_nat 10.
Definition CR : ascii := ascii_of_nat 13.
Definition DQUOTE : ascii := ascii_of_nat 34.

(** [String(char c)]: the constructor copies a two-byte buffer [{c, 0}] as a
    C string, so the NUL character gives the empty string. *)
Definition String_of_char (c : ascii) : string :=
  if Ascii.eqb c NUL then EmptyString else String c EmptyString.

(** The characters a C string pointer designates: those before the first
    NUL. *)
Fixpoint cstr (l : list ascii) : list ascii :=
  match l with
  | [] => []
  | c :: l' => if Ascii.eqb c NUL then [] else c :: cstr l'
  end.

(** The [String] built from a C string pointer. *)
Definition String_of_cstr (l : list ascii) : string :=
  string_of_list_ascii (cstr l).

(** ** Decimal output of [sprintf] *)

Definition digit_char (d : Z) : ascii := ascii_of_nat (Z.to_nat (48 + d)).

Fixpoint dec_digits (fuel : nat) (n : Z) (acc : list ascii) : list ascii :=
  match fuel with
  | O => acc
  | S fuel' =>
      let acc' := digit_char (n mod 10) :: acc in
      if (n / 10 =? 0)%Z then acc' else dec_digits fuel' (n / 10) acc'
  end.

(** The decimal digits of a number that is not negative, most significant
    first ("0" for zero); a number has no more decimal digits than bits. *)
Definition dec_of_Z (n : Z) : list ascii :=
  dec_digits (S (Z.to_nat (Z.log2 n))) n [].

(** [%i]: an optional minus sign and the digits. *)
Definition fmt_i (z : Z) : list ascii :=
  if (z <? 0)%Z then "-"%char :: dec_of_Z (- z) else dec_of_Z z.

(** [%03i]: as [%i], with zeros after the sign to fill a width of three
    characters. *)
Definition fmt_03i (z : Z) : list ascii :=
  if (z <? 0)%Z then
    let ds := dec_of_Z (- z) in
    "-"%char :: replicate (2 - length ds) "0"%char ++ ds
  else
    let ds := dec_of_Z z in
    replicate (3 - length ds) "0"%char ++ ds.

(** [%02d], for a number that is not negative: as [%i], with a zero in front
    of a single digit. *)
Definition fmt_02d (z : Z) : list ascii :=
  let ds := dec_of_Z z in replicate (2 - length ds) "0"%char ++ ds.

(** [sprintf] into [char buff[n]]: the text and its terminating NUL have to
    fit; writing past the array has no defined result. *)
Definition sprintf_into (size : nat) (text : list ascii) : option (list ascii) :=
  if length text <? size then Some text else None.

(** ** The command engine: [ICHIPWIFI] *)

(** The states of the protocol that the sources name; the enumeration itself
    is declared in the header. *)
Inductive ICHIP_COMM_STATE : Type :=
  | IDLE
  | GET_PARAM
  | SET_PARAM
  | SEND_SOCKET.

Definition is_IDLE (st : ICHIP_COMM_STATE) : bool :=
  match st with IDLE => true | _ => false end.

(** One slot of [sendingBuffer]. *)
Module SendBuff.
Record t : Type := mk { cmd : string; state : ICHIP_COMM_STATE }.
End SendBuff.

(** An argument of a [printf]-like call. *)
Inductive Arg : Type :=
  | A_int (z : Z)
  | A_str (text : string).

(** Calls to the logger: the format and its arguments. *)
Inductive LogCall : Type :=
  | Logger_console (fmt : string) (args : list Arg)
  | Logger_info (fmt : string) (args : list Arg)
  | Logger_debug (text : string).

(** Messages of the device manager, with the payload each kind carries. *)
Inductive Message : Type :=
  | MSG_SET_PARAM (paramName value : string)
  | MSG_CONFIG_CHANGE
  | MSG_COMMAND (text : string).

Module ICHIPWIFI.

(** The object's fields, as [setup] initialises them, together with what the
    object reads from and writes to its environment: the bytes written to
    [serialInterface], the value of [millis()], the logger's debug switch and
    the calls to the logger. *)
Record t : Type := mk {
  state : ICHIP_COMM_STATE;
  sendingBuffer : list SendBuff.t;
  psWritePtr : nat;
  psReadPtr : nat;
  ibWritePtr : nat;
  tickCounter : Z;
  listeningSocket : Z;
  lastSentTime : Z;
  lastSentState : ICHIP_COMM_STATE;
  lastSentCmd : string;
  activeSockets : list Z;
  didParamLoad : bool;
  didTCPListener : bool;
  serialInterface : string;
  millis : Z;
  isDebug : bool;
  logger : list LogCall
}.

(** The ring has 64 slots: its pointers are advanced under the mask 63. *)
Definition QUEUE_SLOTS : nat := 64.

Section Engine.

(** [Constants::ichipCommandPrefix], declared outside these sources. *)
Variable ichipCommandPrefix : string.

(** [setup]: pins, tick handler, baud rate and the log line aside, the
    fields' initial values.  The slots of [sendingBuffer] hold empty strings
    until written. *)
Definition setup (s : t) : t :=
  {| state := IDLE;
     sendingBuffer := replicate QUEUE_SLOTS (SendBuff.mk EmptyString IDLE);
     psWritePtr := 0;
     psReadPtr := 0;
     ibWritePtr := 0;
     tickCounter := 0;
     listeningSocket := 0;
     lastSentTime := millis s;
     lastSentState := IDLE;
     lastSentCmd := EmptyString;
     activeSockets := [-1; -1; -1; -1]%Z;
     didParamLoad := false;
     didTCPListener := false;
     serialInterface := serialInterface s;
     millis := millis s;
     isDebug := isDebug s;
     logger := logger s |}.

(** [sendCmd(cmd, cmdstate)]. *)
Definition sendCmd (cmd : string) (cmdstate : ICHIP_COMM_STATE) (s : t) : t :=
  if negb (is_IDLE (state s)) then
    {| state := state s;
       sendingBuffer := <[psWritePtr s := SendBuff.mk cmd cmdstate]> (sendingBuffer s);
       psWritePtr := Nat.land (psWritePtr s + 1) 63;
       psReadPtr := psReadPtr s;
       ibWritePtr := ibWritePtr s;
       tickCounter := tickCounter s;
       listeningSocket := listeningSocket s;
       lastSentTime := lastSentTime s;
       lastSentState := lastSentState s;
       lastSentCmd := lastSentCmd s;
       activeSockets := activeSockets s;
       didParamLoad := didParamLoad s;
       didTCPListener := didTCPListener s;
       serialInterface := serialInterface s;
       millis := millis s;
       isDebug := isDebug s;
       logger := if isDebug s
                 then logger s ++ [Logger_debug ("Buffer cmd: " +:+ cmd)]
                 else logger s |}
  else
    {| state := cmdstate;
       sendingBuffer := sendingBuffer s;
       psWritePtr := psWritePtr s;
       psReadPtr := psReadPtr s;
       ibWritePtr := ibWritePtr s;
       tickCounter := tickCounter s;
       listeningSocket := listeningSocket s;
       lastSentTime := millis s;
       lastSentState := cmdstate;
       lastSentCmd := cmd;
       activeSockets := activeSockets s;
       didParamLoad := didParamLoad s;
       didTCPListener := didTCPListener s;
       serialInterface :=
         ((serialInterface s +:+ ichipCommandPrefix) +:+ cmd) +:+ String CR EmptyString;
       millis := millis s;
       isDebug := isDebug s;
       logger := if isDebug s
                 then logger s ++ [Logger_debug ("Send to ichip cmd: " +:+ cmd)]
                 else logger s |}.

(** [sendCmd(cmd)]: the version that defaults to [SET_PARAM]. *)
Definition sendCmd1 (cmd : string) (s : t) : t := sendCmd cmd SET_PARAM s.

(** [sendToSocket(socket, data)].  Both [sprintf] calls write into
    [char buff[6]].  The text ["SSND%%:"] is an operand of [String]
    concatenation, not a format, so both percent signs are part of it. *)
Definition sendToSocket (socket : Z) (data : string) (s : t) : option t :=
  match sprintf_into 6 (fmt_03i socket) with
  | None => None
  | Some buff =>
      let temp := "SSND%%:" +:+ string_of_list_ascii buff in
      match sprintf_into 6 (","%char :: fmt_i (Z.of_nat (String.length data)) ++ [":"%char]) with
      | None => None
      | Some buff' =>
          let temp' := (temp +:+ string_of_list_ascii buff') +:+ data in
          Some (sendCmd temp' SEND_SOCKET s)
      end
  end.

(** [handleTick], [loop], [processParameterChange] and [loadParameters] have
    empty bodies. *)
Definition handleTick (s : t) : t := s.

Definition loop (s : t) : t := s.

Definition processParameterChange (key : list ascii) (s : t) : t := s.

Definition loadParameters (s : t) : t := s.

Definition getNextParam (s : t) : t := sendCmd "WNXT" GET_PARAM s.

Definition getParamById (paramName : string) (s : t) : t :=
  sendCmd (paramName +:+ "?") GET_PARAM s.

(** [setParam(paramName, value)] on two strings: [paramName="value"]. *)
Definition setParam (paramName value : string) (s : t) : t :=
  sendCmd (((paramName +:+ String "="%char (String DQUOTE EmptyString)) +:+ value)
             +:+ String DQUOTE EmptyString) SET_PARAM s.

(** [handleMessage], for the kinds of message it switches on; the call of
    the base class, which the source says matters for the start-up message
    only, is left aside. *)
Definition handleMessage (m : Message) (s : t) : t :=
  match m with
  | MSG_SET_PARAM paramName value => setParam paramName value s
  | MSG_CONFIG_CHANGE => loadParameters s
  | MSG_COMMAND text => sendCmd1 text s
  end.

(** [getTimeRunning]: the text [hh:mm:ss] made of the 32-bit millisecond
    counter. *)
Definition getTimeRunning (s : t) : list ascii :=
  let ms := (millis s mod 2 ^ 32)%Z in
  let seconds := ((ms / 1000) mod 60)%Z in
  let minutes := ((ms / (1000 * 60)) mod 60)%Z in
  let hours := ((ms / (1000 * 3600)) mod 24)%Z in
  fmt_02d hours ++ ":"%char :: fmt_02d minutes ++ ":"%char :: fmt_02d seconds.

End Engine.

(** *** Vocabulary of the engine's properties *)

(** [n] calls of a function. *)
Definition times {A : Type} (n : nat) (f : A -> A) (a : A) : A := Nat.iter n f a.

(** The command as it goes over the wire: prefix, payload, terminator. *)
Definition frame (prefix cmd : string) : string :=
  prefix +:+ (cmd +:+ String CR EmptyString).

(** Several calls of [sendCmd] in a row. *)
Definition sendAll (prefix : string) (cmds : list SendBuff.t) (s : t) : t :=
  fold_left (fun s e => sendCmd prefix (SendBuff.cmd e) (SendBuff.state e) s) cmds s.

(** The slots between the read pointer and the write pointer, in ring order:
    what a reader that advances [psReadPtr] up to [psWritePtr] finds. *)
Definition unread (s : t) : list SendBuff.t :=
  take (Nat.land (psWritePtr s + QUEUE_SLOTS - psReadPtr s) 63)
       (drop (psReadPtr s) (sendingBuffer s) ++ take (psReadPtr s) (sendingBuffer s)).

(** The object before [setup] has run, with nothing written to the wire. *)
Definition power_on : t :=
  {| state := IDLE; sendingBuffer := replicate QUEUE_SLOTS (SendBuff.mk EmptyString IDLE);
     psWritePtr := 0; psReadPtr := 0; ibWritePtr := 0; tickCounter := 0;
     listeningSocket := 0; lastSentTime := 0; lastSentState := IDLE;
     lastSentCmd := EmptyString; activeSockets := []; didParamLoad := false;
     didTCPListener := false; serialInterface := EmptyString; millis := 0;
     isDebug := false; logger := [] |}.

(** The commands [c1], [c2], ... [cn]. *)
Definition numbered (n : nat) : list SendBuff.t :=
  map (fun i => SendBuff.mk (string_of_list_ascii ("c"%char :: dec_of_Z (Z.of_nat i))) SET_PARAM)
      (seq 1 n).

(** The number a text of decimal digits stands for; [None] when a character
    is no digit. *)
Fixpoint dec_value (acc : Z) (l : list ascii) : option Z :=
  match l with
  | [] => Some acc
  | ch :: l' =>
      let n := Z.of_nat (nat_of_ascii ch) in
      if (48 <=? n)%Z && (n <=? 57)%Z then dec_value (acc * 10 + (n - 48))%Z l'
      else None
  end.

(** A call of one of the object's functions, or a change of what the object
    reads from its environment: the millisecond counter and the logger's
    debug switch. *)
Inductive Call : Type :=
  | call_sendCmd (cmd : string) (cmdstate : ICHIP_COMM_STATE)
  | call_sendCmd1 (cmd : string)
  | call_sendToSocket (socket : Z) (data : string)
  | call_handleTick
  | call_loop
  | call_processParameterChange (key : list ascii)
  | call_loadParameters
  | call_getNextParam
  | call_getParamById (paramName : string)
  | call_setParam (paramName value : string)
  | call_handleMessage (m : Message)
  | env_millis (now : Z)
  | env_isDebug (on : bool).

Definition call (prefix : string) (k : Call) (s : t) : option t :=
  match k with
  | call_sendCmd cmd cmdstate => Some (sendCmd prefix cmd cmdstate s)
  | call_sendCmd1 cmd => Some (sendCmd1 prefix cmd s)
  | call_sendToSocket socket data => sendToSocket prefix socket data s
  | call_handleTick => Some (handleTick s)
  | call_loop => Some (loop s)
  | call_processParameterChange key => Some (processParameterChange key s)
  | call_loadParameters => Some (loadParameters s)
  | call_getNextParam => Some (getNextParam prefix s)
  | call_getParamById paramName => Some (getParamById prefix paramName s)
  | call_setParam paramName value => Some (setParam prefix paramName value s)
  | call_handleMessage m => Some (handleMessage prefix m s)
  | env_millis now =>
      Some (mk (state s) (sendingBuffer s) (psWritePtr s) (psReadPtr s) (ibWritePtr s)
               (tickCounter s) (listeningSocket s) (lastSentTime s) (lastSentState s)
               (lastSentCmd s) (activeSockets s) (didParamLoad s) (didTCPListener s)
               (serialInterface s) now (isDebug s) (logger s))
  | env_isDebug on =>
      Some (mk (state s) (sendingBuffer s) (psWritePtr s) (psReadPtr s) (ibWritePtr s)
               (tickCounter s) (listeningSocket s) (lastSentTime s) (lastSentState s)
               (lastSentCmd s) (activeSockets s) (didParamLoad s) (didTCPListener s)
               (serialInterface s) (millis s) on (logger s))
  end.



End ICHIPWIFI.

(** ** [strtol(nptr, NULL, 0)]

    The C library's conversion with the base detected from the text, for the
    target's 32-bit [long]: white space, an optional sign, an optional [0x]
    or [0X] (base 16) or a leading [0] (base 8), then the digits of that
    base; a value out of range is clamped to [LONG_MIN] or [LONG_MAX].  The
    text is the memory from [nptr] on; the conversion stops at the first
    character that is no digit of the base, so at the terminating NUL. *)

Definition LONG_MAX : Z := 2147483647.
Definition LONG_MIN : Z := -2147483648.

Definition isspace (c : ascii) : bool :=
  let n := nat_of_ascii c in (n =? 32) || ((9 <=? n) && (n <=? 13)).

Definition digit_val (c : ascii) : option Z :=
  let n := Z.of_nat (nat_of_ascii c) in
  if (48 <=? n)%Z && (n <=? 57)%Z then Some (n - 48)%Z
  else if (65 <=? n)%Z && (n <=? 90)%Z then Some (n - 55)%Z
  else if (97 <=? n)%Z && (n <=? 122)%Z then Some (n - 87)%Z
  else None.

Fixpoint skip_space (l : list ascii) : list ascii :=
  match l with
  | c :: l' => if isspace c then skip_space l' else l
  | [] => []
  end.

Definition parse_sign (l : list ascii) : bool * list ascii :=
  match l with
  | c :: l' =>
      if Ascii.eqb c "-" then (true, l')
      else if Ascii.eqb c "+" then (false, l')
      else (false, l)
  | [] => (false, [])
  end.

Definition parse_base (l : list ascii) : Z * list ascii :=
  match l with
  | c :: l' =>
      if Ascii.eqb c "0" then
        match l' with
        | x :: l'' =>
            if Ascii.eqb x "x" || Ascii.eqb x "X" then (16%Z, l'') else (8%Z, l)
        | [] => (8%Z, l)
        end
      else (10%Z, l)
  | [] => (10%Z, [])
  end.

(** The digit loop: [any] is 1 once a digit was taken and -1 once the value
    left the range. *)
Fixpoint accumulate (base cutoff cutlim : Z) (l : list ascii) (acc any : Z) : Z * Z :=
  match l with
  | [] => (acc, any)
  | c :: l' =>
      match digit_val c with
      | None => (acc, any)
      | Some d =>
          if (base <=? d)%Z then (acc, any)
          else if (any <? 0)%Z || (cutoff <? acc)%Z || ((acc =? cutoff)%Z && (cutlim <? d)%Z)
          then accumulate base cutoff cutlim l' acc (-1)%Z
          else accumulate base cutoff cutlim l' (acc * base + d)%Z 1%Z
      end
  end.

Definition strtol (nptr : list ascii) : Z :=
  let '(neg, s1) := parse_sign (skip_space nptr) in
  let '(base, s2) := parse_base s1 in
  let cutoff := if neg then (- LONG_MIN)%Z else LONG_MAX in
  let '(acc, any) := accumulate base (cutoff / base)%Z (cutoff mod base)%Z s2 0%Z 0%Z in
  if (any <? 0)%Z then (if neg then LONG_MIN else LONG_MAX)
  else if neg then (- acc)%Z else acc.

(** [toupper] and [String::toUpperCase]. *)
Definition toupper (c : ascii) : ascii :=
  let n := nat_of_ascii c in
  if (97 <=? n) && (n <=? 122) then ascii_of_nat (n - 32) else c.

Fixpoint toUpperCase (s : string) : string :=
  match s with
  | EmptyString => EmptyString
  | String c s' => String (toupper c) (toUpperCase s')
  end.

(** ** The console: [SerialConsole] *)

Inductive LogLevel : Type := Debug | Info | Warn | Error | Off.

(** What the console does to its collaborators, in the order of the calls.
    [sendMessage] stands for
    [DeviceManager::sendMessage(DEVICE_WIFI, ICHIP2128, kind, payload)]. *)
Inductive Event : Type :=
  | SerialUSB_print (a : Arg)
  | SerialUSB_println (a : option Arg)
  | Log (call : LogCall)
  | Logger_setLoglevel (level : LogLevel)
  | sysPrefs_write_LOG_LEVEL (value : Z)
  | sysPrefs_saveChecksum
  | sendMessage (m : Message)
  | DeviceManager_updateWifi
  | DeviceManager_printDeviceList
  | setOutput (which : Z) (active : bool)
  | memCache_Write (address value : Z)
  | memCache_FlushAllPages
  | memCache_InvalidateAll
  | delay (ms : Z)
  | call_setup.

(** What the console reads from its collaborators, each as a function of the
    calls made so far, and the constants declared outside these sources. *)
Record Env : Type := {
  getOutput : list Event -> Z -> Z;
  memCache_Read : list Event -> Z -> Z;
  sysPrefs_read_SYSTEM_TYPE : list Event -> Z;
  Logger_getLogLevel : list Event -> Z;
  CFG_BUILD_NUM : Z;
  NUM_OUTPUT : nat;
  EE_SYSTEM_START : Z;
  EE_DEVICES_BASE : Z;
  EE_DEVICE_SIZE : Z;
  ICHIP2128 : Z;
  STATE_ROOT_MENU : Z
}.

Module SerialConsole.

(** The object's fields and the events it has caused.  [cmdBuffer] is a
    [char] array of 80 bytes: the write offset is clamped to 79 and the NUL
    that ends the line is written at that offset.  [heartbeat] tells whether
    the pointer is set. *)
Record t : Type := mk {
  heartbeat : bool;
  handlingEvent : bool;
  ptrBuffer : nat;
  cmdBuffer : list ascii;
  state : Z;
  loopcount : Z;
  cancel : bool;
  events : list Event
}.

Definition CMD_BUFFER_SIZE : nat := 80.

Definition emit (es : list Event) (c : t) : t :=
  mk (heartbeat c) (handlingEvent c) (ptrBuffer c) (cmdBuffer c) (state c)
     (loopcount c) (cancel c) (events c ++ es).

Definition set_cmdBuffer (buf : list ascii) (c : t) : t :=
  mk (heartbeat c) (handlingEvent c) (ptrBuffer c) buf (state c)
     (loopcount c) (cancel c) (events c).

Definition set_ptrBuffer (p : nat) (c : t) : t :=
  mk (heartbeat c) (handlingEvent c) p (cmdBuffer c) (state c)
     (loopcount c) (cancel c) (events c).

Definition set_handlingEvent (b : bool) (c : t) : t :=
  mk (heartbeat c) b (ptrBuffer c) (cmdBuffer c) (state c)
     (loopcount c) (cancel c) (events c).

(** [cmdBuffer[i]]. *)
Definition char_at (buf : list ascii) (i : nat) : ascii := default NUL (buf !! i).

Definition console (fmt : string) (args : list Arg) : Event :=
  Log (Logger_console fmt args).

Definition info (fmt : string) (args : list Arg) : Event :=
  Log (Logger_info fmt args).

Definition quoted (text : string) : string :=
  String DQUOTE (text +:+ String DQUOTE EmptyString).

Section Console.

Variable env : Env.

(** [init]: an object whose fields the constructor has set; it leaves the
    bytes of [cmdBuffer] as they are. *)
Definition init (has_heartbeat : bool) (buf : list ascii) : t :=
  {| heartbeat := has_heartbeat;
     handlingEvent := false;
     ptrBuffer := 0;
     cmdBuffer := buf;
     state := STATE_ROOT_MENU env;
     loopcount := 0;
     cancel := false;
     events := [] |}.

(** [printMenu]. *)
Definition printMenu (c : t) : t :=
  let c := emit
    ([ SerialUSB_print (A_str "Build number: ");
       SerialUSB_println (Some (A_int (CFG_BUILD_NUM env)));
       SerialUSB_println (Some (A_str "System Menu:"));
       SerialUSB_println None;
       SerialUSB_println (Some (A_str "Enable line endings of some sort (LF, CR, CRLF)"));
       SerialUSB_println None;
       SerialUSB_println (Some (A_str "Short Commands:"));
       SerialUSB_println (Some (A_str "h = help (displays this message)")) ]
     ++ (if heartbeat c
         then [ SerialUSB_println (Some (A_str "L = show raw analog/digital input/output values (toggle)")) ]
         else [])
     ++
     [ SerialUSB_println (Some (A_str "K = set all outputs high"));
       SerialUSB_println (Some (A_str "J = set all outputs low"));
       SerialUSB_println (Some (A_str "E = dump system eeprom values"));
       SerialUSB_println (Some (A_str "z = detect throttle min/max, num throttles and subtype"));
       SerialUSB_println (Some (A_str "Z = save throttle values"));
       SerialUSB_println (Some (A_str "b = detect brake min/max"));
       SerialUSB_println (Some (A_str "B = save brake values"));
       SerialUSB_println (Some (A_str "p = enable wifi passthrough (reboot required to resume normal operation)"));
       SerialUSB_println (Some (A_str "S = show possible device IDs"));
       SerialUSB_println (Some (A_str "w = GEVCU 4.2 reset wifi to factory defaults, setup GEVCU ad-hoc network"));
       SerialUSB_println (Some (A_str "W = GEVCU 5.2 reset wifi to factory defaults, setup GEVCU as 10.0.0.1 Access Point"));
       SerialUSB_println (Some (A_str "s = Scan WiFi for nearby access points"));
       SerialUSB_println None;
       SerialUSB_println (Some (A_str "Config Commands (enter command=newvalue). Current values shown in parenthesis:"));
       SerialUSB_println None ]) c in
  let c := emit
    [ console "LOGLEVEL=%i - set log level (0=debug, 1=info, 2=warn, 3=error, 4=off)"
        [A_int (Logger_getLogLevel env (events c))] ] c in
  let systype := sysPrefs_read_SYSTEM_TYPE env (events c) in
  emit
    [ console "SYSTYPE=%i - Set board revision (Dued=2, GEVCU3=3, GEVCU4=4)" [A_int systype];
      DeviceManager_printDeviceList ] c.

(** The loop that collects the key: it runs while [cmdBuffer[i]] is not [=]
    and [i < ptrBuffer]; [n] is [ptrBuffer - i]. *)
Fixpoint keyLoop (n : nat) (buf : list ascii) (i : nat) (cmdString : string) : nat * string :=
  match n with
  | O => (i, cmdString)
  | S n' =>
      if Ascii.eqb (char_at buf i) "=" then (i, cmdString)
      else keyLoop n' buf (S i) (cmdString +:+ String_of_char (char_at buf i))
  end.

(** The branch shared by the keys that set a parameter of the peripheral:
    the parameter's name, [=] and the value text are sent as one command,
    then [DOWN]. *)
Definition wifiParam (param : string) (value : list ascii) (c : t) : t :=
  let cmdString := (param +:+ String "="%char EmptyString) +:+ String_of_cstr value in
  emit [ info ("Sent " +:+ quoted "%s" +:+ " to WiReach wireless LAN device") [A_str cmdString];
         sendMessage (MSG_COMMAND cmdString);
         sendMessage (MSG_COMMAND "DOWN") ] c.

(** Text without NUL characters appended one character at a time, as the
    key is: [String(char)] of NUL is empty. *)
Fixpoint key_string (l : list ascii) : string :=
  match l with
  | [] => EmptyString
  | ch :: l' => String_of_char ch +:+ key_string l'
  end.

(** The chain of comparisons of [handleConfigCmd], on the key in upper case,
    the value text [cmdBuffer + i] and the number [strtol] made of it, with
    the notification that concludes it unless [updateWifi] was cleared. *)
Definition dispatchConfigCmd (cmdString : string) (value : list ascii) (newValue : Z) (c : t) : t :=
  let '(c, updateWifi) :=
    if String.eqb cmdString "LOGLEVEL" then
      let c :=
        if (newValue =? 0)%Z then
          emit [ Logger_setLoglevel Debug; console "setting loglevel to 'debug'" [] ] c
        else if (newValue =? 1)%Z then
          emit [ Logger_setLoglevel Info; console "setting loglevel to 'info'" [] ] c
        else if (newValue =? 2)%Z then
          emit [ console "setting loglevel to 'warning'" []; Logger_setLoglevel Warn ] c
        else if (newValue =? 3)%Z then
          emit [ console "setting loglevel to 'error'" []; Logger_setLoglevel Error ] c
        else if (newValue =? 4)%Z then
          emit [ console "setting loglevel to 'off'" []; Logger_setLoglevel Off ] c
        else c in
      (emit [ sysPrefs_write_LOG_LEVEL (newValue mod 256)%Z; sysPrefs_saveChecksum ] c, true)
    else if String.eqb cmdString "WIREACH" then
      (emit [ sendMessage (MSG_COMMAND (String_of_cstr value));
              info ("sent " +:+ quoted "AT+i%s" +:+ " to WiReach wireless LAN device")
                   [A_str (String_of_cstr value)];
              sendMessage (MSG_COMMAND "DOWN") ] c, false)
    else if String.eqb cmdString "SSID" then (wifiParam "WLSI" value c, false)
    else if String.eqb cmdString "IP" then (wifiParam "DIP" value c, false)
    else if String.eqb cmdString "CHANNEL" then (wifiParam "WLCH" value c, false)
    else if String.eqb cmdString "SECURITY" then (wifiParam "WLPP" value c, false)
    else if String.eqb cmdString "PWD" then (wifiParam "WPWD" value c, false)
    else if String.eqb cmdString "OUTPUT" && (newValue <? 8)%Z then
      let outie := getOutput env (events c) newValue in
      let c := emit [ console "DOUT%d,  STATE: %d" [A_int newValue; A_int outie] ] c in
      let c := emit [ setOutput newValue (outie =? 0)%Z ] c in
      (emit [ console "DOUT0:%d, DOUT1:%d, DOUT2:%d, DOUT3:%d, DOUT4:%d, DOUT5:%d, DOUT6:%d, DOUT7:%d"
                (map (fun k => A_int (getOutput env (events c) k)) [0; 1; 2; 3; 4; 5; 6; 7]%Z) ] c,
       true)
    else if String.eqb cmdString "NUKE" then
      if (newValue =? 1)%Z then
        (emit (flat_map (fun j => [ memCache_Write (EE_DEVICES_BASE env + EE_DEVICE_SIZE env * Z.of_nat j)%Z 0%Z;
                                     memCache_FlushAllPages ]) (seq 0 64)
               ++ [ console "Device settings have been nuked. Reboot to reload default settings" [] ]) c,
         true)
      else (c, true)
    else (emit [ console "Unknown command" [] ] c, false) in
  if updateWifi then emit [ sendMessage MSG_CONFIG_CHANGE ] c else c.

(** [handleConfigCmd]: the length test, the terminating NUL, the key up to
    the first [=], the test for a value, then the dispatch. *)
Definition handleConfigCmd (c : t) : t :=
  if ptrBuffer c <? 6 then c
  else
    let c := set_cmdBuffer (<[ptrBuffer c := NUL]> (cmdBuffer c)) c in
    let '(i0, cmdString) := keyLoop (ptrBuffer c) (cmdBuffer c) 0 EmptyString in
    let i := S i0 in
    if ptrBuffer c <=? i then
      emit [ console "Command needs a value..ie TORQ=3000" [];
             console EmptyString [] ] c
    else
      let value := drop i (cmdBuffer c) in
      let newValue := strtol value in
      dispatchConfigCmd (toUpperCase cmdString) value newValue c.

(** The loop of the short commands [I] and [E]: 256 bytes are read from the
    memory cache and printed. *)
Definition dumpBytes (base : Z) (c : t) : t :=
  fold_left
    (fun c i =>
       let val := memCache_Read env (events c) (base + Z.of_nat i)%Z in
       emit [ console "%d: %d" [A_int (Z.of_nat i); A_int val] ] c)
    (seq 0 256) c.

Definition wifiCommand (text : string) : Event := sendMessage (MSG_COMMAND text).

(** [handleShortCmd].  The command [p] enters a relay loop that is never
    left: the call does not return, which is [None]. *)
Definition handleShortCmd (c : t) : option t :=
  let ch := char_at (cmdBuffer c) 0 in
  if Ascii.eqb ch "h" || Ascii.eqb ch "?" || Ascii.eqb ch "H" then Some (printMenu c)
  else if Ascii.eqb ch "L" then Some c
  else if Ascii.eqb ch "U" then
    Some (emit
      ([ console "Adding a sequence of values from 0 to 255 into eeprom" [] ]
       ++ map (fun i => memCache_Write (1000 + Z.of_nat i)%Z (Z.of_nat i)) (seq 0 256)
       ++ [ info "Flushing cache" [];
            memCache_FlushAllPages;
            memCache_InvalidateAll;
            console "Operation complete." [] ]) c)
  else if Ascii.eqb ch "I" then
    Some (dumpBytes 1000%Z (emit [ console "Retrieving data previously saved" [] ] c))
  else if Ascii.eqb ch "E" then
    Some (dumpBytes (EE_SYSTEM_START env) (emit [ console "Reading System EEPROM values" [] ] c))
  else if Ascii.eqb ch "K" then
    Some (emit (map (fun tout => setOutput (Z.of_nat tout) true) (seq 0 (NUM_OUTPUT env))
                ++ [ console "all outputs: ON" [] ]) c)
  else if Ascii.eqb ch "J" then
    Some (emit (map (fun tout => setOutput (Z.of_nat tout) false) (seq 0 (NUM_OUTPUT env))
                ++ [ console "all outputs: OFF" [] ]) c)
  else if Ascii.eqb ch "p" then None
  else if Ascii.eqb ch "S" then
    Some (emit [ console "WIFI (iChip2128) = %X" [A_int (ICHIP2128 env)] ] c)
  else if Ascii.eqb ch "s" then
    Some (emit [ console "Finding and listing all nearby WiFi access points" [];
                 wifiCommand "RP20" ] c)
  else if Ascii.eqb ch "W" then
    Some (emit [ console "Setting Wifi Adapter to WPS mode (make sure you press the WPS button on your router)" [];
                 wifiCommand "AWPS" ] c)
  else if Ascii.eqb ch "w" then
    Some (emit [ console "Resetting wifi to factory defaults and setting up GEVCU4.2 Ad Hoc network" [];
                 wifiCommand "FD"; delay 2000;
                 wifiCommand "HIF=1"; delay 1000;
                 wifiCommand "BDRA"; delay 1000;
                 wifiCommand "WLCH=9"; delay 1000;
                 wifiCommand "WLSI=!GEVCU"; delay 1000;
                 wifiCommand "DIP=192.168.3.10"; delay 1000;
                 wifiCommand "DPSZ=8"; delay 1000;
                 wifiCommand "RPG=secret"; delay 1000;
                 wifiCommand "WPWD=secret"; delay 1000;
                 wifiCommand "AWS=1"; delay 1000;
                 wifiCommand "DOWN"; delay 5000;
                 sendMessage MSG_CONFIG_CHANGE;
                 console "Wifi 4.2 initialized" [] ] c)
  else if Ascii.eqb ch "X" then Some (emit [ call_setup ] c)
  else Some c.

(** [handleConsoleCmd]. *)
Definition handleConsoleCmd (c : t) : option t :=
  let c := set_handlingEvent true c in
  let r :=
    if (state c =? STATE_ROOT_MENU env)%Z then
      if ptrBuffer c =? 1 then handleShortCmd c else Some (handleConfigCmd c)
    else Some c in
  option_map (set_handlingEvent false) r.

(** [serialEvent], on the value [SerialUSB.read()] returned. *)
Definition serialEvent (incoming : Z) (c : t) : option t :=
  if (incoming =? -1)%Z then Some c
  else if (incoming =? 10)%Z || (incoming =? 13)%Z then
    option_map (set_ptrBuffer 0) (handleConsoleCmd c)
  else
    let c := set_cmdBuffer
               (<[ptrBuffer c := ascii_of_nat (Z.to_nat (incoming mod 256))]> (cmdBuffer c)) c in
    let c := set_ptrBuffer (ptrBuffer c + 1) c in
    Some (if 79 <? ptrBuffer c then set_ptrBuffer 79 c else c).

(** [loop]; [rx] is [None] when [SerialUSB.available()] is zero and the value
    the read returns otherwise. *)
Definition loop (rx : option Z) (c : t) : option t :=
  let c :=
    if negb (cancel c) then
      let hit := (loopcount c =? 350000)%Z in
      let c := mk (heartbeat c) (handlingEvent c) (ptrBuffer c) (cmdBuffer c) (state c)
                  (loopcount c + 1)%Z (cancel c) (events c) in
      if hit then
        mk (heartbeat c) (handlingEvent c) (ptrBuffer c) (cmdBuffer c) (state c)
           (loopcount c) true (events c ++ [DeviceManager_updateWifi])
      else c
    else c in
  if negb (handlingEvent c) then
    match rx with
    | Some incoming => serialEvent incoming c
    | None => Some c
    end
  else Some c.

(** The bytes of a text arrive one by one. *)
Fixpoint feed (bytes : list ascii) (c : t) : option t :=
  match bytes with
  | [] => Some c
  | b :: bytes' =>
      match serialEvent (Z.of_nat (nat_of_ascii b)) c with
      | Some c' => feed bytes' c'
      | None => None
      end
  end.

End Console.

(** *** Vocabulary of the console's properties *)

(** The line the console holds: the first [ptrBuffer] bytes of [cmdBuffer]. *)
Definition line (c : t) : list ascii := take (ptrBuffer c) (cmdBuffer c).

(** A byte that does not end the line. *)
Definition non_terminator (b : ascii) : Prop := b <> LF /\ b <> CR.

Definition is_Log (e : Event) : bool :=
  match e with Log _ => true | _ => false end.

(** The events other than calls to the logger: commands and notifications
    sent to the peripheral, values written to the stores, outputs set. *)
Definition effects (es : list Event) : list Event :=
  List.filter (fun e => negb (is_Log e)) es.

(** The two lines printed for a line that has no value. *)
Definition usage_hint : list Event :=
  [ console "Command needs a value..ie TORQ=3000" []; console EmptyString [] ].

(** The keys that set a parameter of the peripheral, each with the text put
    before the value in the command sent. *)
Definition wifiKeys : list (string * string) :=
  [ ("WIREACH", EmptyString); ("SSID", "WLSI="); ("IP", "DIP=");
    ("CHANNEL", "WLCH="); ("SECURITY", "WLPP="); ("PWD", "WPWD=") ]%string.

(** The text after the first [=] of a line, if the line has one. *)
Fixpoint value_text (l : list ascii) : option (list ascii) :=
  match l with
  | [] => None
  | ch :: l' => if Ascii.eqb ch "=" then Some l' else value_text l'
  end.

(** A line with no value after the [=]: there is no [=], or nothing
    follows the first one. *)
Definition no_value (l : list ascii) : Prop :=
  value_text l = None \/ value_text l = Some [].

(** An environment whose outputs are all off and whose stores hold zeros,
    and a console that has just been constructed in it. *)
Definition env0 : Env :=
  {| getOutput := fun _ _ => 0%Z;
     memCache_Read := fun _ _ => 0%Z;
     sysPrefs_read_SYSTEM_TYPE := fun _ => 4%Z;
     Logger_getLogLevel := fun _ => 1%Z;
     CFG_BUILD_NUM := 1%Z;
     NUM_OUTPUT := 8;
     EE_SYSTEM_START := 0%Z;
     EE_DEVICES_BASE := 1024%Z;
     EE_DEVICE_SIZE := 512%Z;
     ICHIP2128 := 4133%Z;
     STATE_ROOT_MENU := 0%Z |}.

Definition console0 : t := init env0 false (replicate CMD_BUFFER_SIZE NUL).

(** The console after the bytes of a text have arrived. *)
Definition typed (text : string) : option t :=
  feed env0 (list_ascii_of_string text) console0.

(** That console, when the text has no terminator in it. *)
Definition holding (text : string) : t :=
  match typed text with Some c => c | None => console0 end.

(** The values [SerialUSB.read()] returns, handled one after the other;
    [None] when a call does not return. *)
Fixpoint serialEvents (env : Env) (incomings : list Z) (c : t) : option t :=
  match incomings with
  | [] => Some c
  | incoming :: incomings' =>
      match serialEvent env incoming c with
      | Some c' => serialEvents env incomings' c'
      | None => None
      end
  end.

(** Calls of [loop] one after the other, each with what the serial port
    holds at that time. *)
Fixpoint polls (env : Env) (rxs : list (option Z)) (c : t) : option t :=
  match rxs with
  | [] => Some c
  | rx :: rxs' =>
      match loop env rx c with
      | Some c' => polls env rxs' c'
      | None => None
      end
  end.

Definition is_updateWifi (e : Event) : bool :=
  match e with DeviceManager_updateWifi => true | _ => false end.

(** The number of calls of [DeviceManager::updateWifi] among the events. *)
Definition updateWifi_calls (es : list Event) : nat :=
  length (List.filter is_updateWifi es).

(** [c'] is [c] after events that hold no call of [updateWifi]: the fields
    that only the constructor and [loop] set are the same, and so is the size
    of the line buffer. *)
Definition extends (c c' : t) : Prop :=
  heartbeat c' = heartbeat c
  /\ state c' = state c
  /\ loopcount c' = loopcount c
  /\ cancel c' = cancel c
  /\ length (cmdBuffer c') = length (cmdBuffer c)
  /\ exists l, events c' = events c ++ l /\ List.filter is_updateWifi l = [].

(** The characters [handleShortCmd] has a case for that does something. *)
Definition short_commands : list ascii :=
  list_ascii_of_string "h?HUIEKJpSsWwX".

(** The keys [handleConfigCmd] compares the key of a line with. *)
Definition config_keys : list string :=
  [ "LOGLEVEL"; "WIREACH"; "SSID"; "IP"; "CHANNEL"; "SECURITY"; "PWD"; "OUTPUT"; "NUKE" ]%string.

(** The log level a number selects. *)
Definition level_of (n : Z) : option LogLevel :=
  if (n =? 0)%Z then Some Debug
  else if (n =? 1)%Z then Some Info
  else if (n =? 2)%Z then Some Warn
  else if (n =? 3)%Z then Some Error
  else if (n =? 4)%Z then Some Off
  else None.

End SerialConsole.

(** * Strings and characters *)

Lemma append_assoc (a b c : string) : (a +:+ b) +:+ c = a +:+ (b +:+ c).
Proof.
  induction a as [|x a IH]; [reflexivity|].
  change (String x ((a +:+ b) +:+ c) = String x (a +:+ (b +:+ c))).
  now rewrite IH.
Qed.

Lemma append_nil_r (a : string) : a +:+ EmptyString = a.
Proof.
  induction a as [|x a IH]; [reflexivity|].
  change (String x (a +:+ EmptyString) = String x a). now rewrite IH.
Qed.

Lemma append_cons (x : ascii) (a b : string) : String x a +:+ b = String x (a +:+ b).
Proof. reflexivity. Qed.

Lemma ascii_eqb_false (a b : ascii) : a <> b -> Ascii.eqb a b = false.
Proof. intros H. now apply Ascii.eqb_neq. Qed.

Lemma cstr_app_NUL (v rest : list ascii) : cstr (v ++ NUL :: rest) = cstr v.
Proof.
  induction v as [|x v IH]; cbn [app cstr].
  - reflexivity.
  - destruct (Ascii.eqb x NUL); [reflexivity | now rewrite IH].
Qed.

Lemma cstr_idem (l : list ascii) : cstr (cstr l) = cstr l.
Proof.
  induction l as [|x l IH]; cbn [cstr]; [reflexivity|].
  destruct (Ascii.eqb x NUL) eqn:E; [reflexivity|].
  cbn [cstr]. now rewrite E, IH.
Qed.

(** [strtol] reads the text as a C string: what follows the first NUL has no
    part in the result. *)
Lemma isspace_NUL (x : ascii) : Ascii.eqb x NUL = true -> isspace x = false.
Proof. intros H. apply Ascii.eqb_eq in H. now subst x. Qed.

Lemma skip_space_cstr (l : list ascii) : cstr (skip_space l) = skip_space (cstr l).
Proof.
  induction l as [|x l IH]; cbn [skip_space cstr]; [reflexivity|].
  destruct (Ascii.eqb x NUL) eqn:E.
  - rewrite (isspace_NUL x E). cbn [cstr]. now rewrite E.
  - cbn [skip_space]. destruct (isspace x); [exact IH|]. cbn [cstr]. now rewrite E.
Qed.

Lemma accumulate_cstr (base cutoff cutlim : Z) (l : list ascii) (acc any : Z) :
  accumulate base cutoff cutlim (cstr l) acc any = accumulate base cutoff cutlim l acc any.
Proof.
  revert acc any. induction l as [|x l IH]; intros acc any; cbn [cstr accumulate]; [reflexivity|].
  destruct (Ascii.eqb x NUL) eqn:E.
  - apply Ascii.eqb_eq in E. subst x. reflexivity.
  - cbn [accumulate]. destruct (digit_val x); [|reflexivity].
    destruct (base <=? z)%Z; [reflexivity|].
    destruct ((any <? 0)%Z || (cutoff <? acc)%Z || ((acc =? cutoff)%Z && (cutlim <? z)%Z));
      apply IH.
Qed.

Lemma parse_sign_cstr (l : list ascii) :
  parse_sign (cstr l) = (fst (parse_sign l), cstr (snd (parse_sign l))).
Proof.
  destruct l as [|x l]; cbn [cstr parse_sign]; [reflexivity|].
  destruct (Ascii.eqb x NUL) eqn:E.
  - apply Ascii.eqb_eq in E. subst x. reflexivity.
  - cbn [parse_sign].
    destruct (Ascii.eqb x "-"); [reflexivity|].
    destruct (Ascii.eqb x "+"); [reflexivity|].
    cbn [fst snd cstr]. now rewrite E.
Qed.

Lemma parse_base_cstr (l : list ascii) :
  fst (parse_base (cstr l)) = fst (parse_base l)
  /\ cstr (snd (parse_base (cstr l))) = cstr (snd (parse_base l)).
Proof.
  destruct l as [|x l]; [split; reflexivity|].
  destruct (Ascii.eqb x NUL) eqn:E.
  { apply Ascii.eqb_eq in E. subst x. split; reflexivity. }
  cbn [cstr]. rewrite E. cbn [parse_base].
  destruct (Ascii.eqb x "0") eqn:E0.
  - destruct l as [|y l]; [cbn [cstr fst snd]; rewrite E; split; reflexivity|].
    destruct (Ascii.eqb y NUL) eqn:Ey.
    + apply Ascii.eqb_eq in Ey. subst y.
      cbn [cstr]. change (Ascii.eqb NUL NUL) with true.
      change (Ascii.eqb NUL "x" || Ascii.eqb NUL "X") with false.
      cbn [cstr fst snd]. rewrite E. change (Ascii.eqb NUL NUL) with true.
      split; reflexivity.
    + cbn [cstr]. rewrite Ey.
      destruct (Ascii.eqb y "x" || Ascii.eqb y "X"); cbn [fst snd].
      * split; [reflexivity | apply cstr_idem].
      * split; [reflexivity|]. cbn [cstr]. rewrite E, Ey. now rewrite cstr_idem.
  - cbn [fst snd]. split; [reflexivity|]. cbn [cstr]. rewrite E. now rewrite cstr_idem.
Qed.

Lemma strtol_cstr (l : list ascii) : strtol (cstr l) = strtol l.
Proof.
  unfold strtol. rewrite <- skip_space_cstr, parse_sign_cstr.
  destruct (parse_sign (skip_space l)) as [neg s1]. cbn [fst snd].
  destruct (parse_base_cstr s1) as [Hb Hs].
  destruct (parse_base (cstr s1)) as [base s2].
  destruct (parse_base s1) as [base' s2']. cbn [fst snd] in Hb, Hs. subst base'.
  rewrite <- (accumulate_cstr _ _ _ s2), Hs, accumulate_cstr. reflexivity.
Qed.

Lemma strtol_app_NUL (v rest : list ascii) : strtol (v ++ NUL :: rest) = strtol v.
Proof. now rewrite <- strtol_cstr, cstr_app_NUL, strtol_cstr. Qed.

(** * Properties of the command engine *)

Module EngineFacts.
Import ICHIPWIFI.

Lemma land_63 (n : nat) : Nat.land n 63 = n mod 64.
Proof. change 63 with (Nat.ones 6). now rewrite Nat.land_ones. Qed.

Lemma is_IDLE_true (st : ICHIP_COMM_STATE) : is_IDLE st = true <-> st = IDLE.
Proof. destruct st; simpl; split; congruence. Qed.

Lemma is_IDLE_false (st : ICHIP_COMM_STATE) : is_IDLE st = false <-> st <> IDLE.
Proof. destruct st; simpl; split; congruence. Qed.

Section WithPrefix.

Variable prefix : string.

Lemma sendCmd_idle (cmd : string) (st : ICHIP_COMM_STATE) (s : t) :
  state s = IDLE ->
  serialInterface (sendCmd prefix cmd st s) = serialInterface s +:+ frame prefix cmd
  /\ state (sendCmd prefix cmd st s) = st
  /\ lastSentCmd (sendCmd prefix cmd st s) = cmd
  /\ lastSentState (sendCmd prefix cmd st s) = st
  /\ lastSentTime (sendCmd prefix cmd st s) = millis s
  /\ sendingBuffer (sendCmd prefix cmd st s) = sendingBuffer s
  /\ psWritePtr (sendCmd prefix cmd st s) = psWritePtr s
  /\ psReadPtr (sendCmd prefix cmd st s) = psReadPtr s.
Proof.
  intros H. unfold sendCmd, frame. rewrite H. simpl.
  split; [now rewrite !append_assoc | repeat split].
Qed.

Lemma sendCmd_busy (cmd : string) (st : ICHIP_COMM_STATE) (s : t) :
  state s <> IDLE ->
  serialInterface (sendCmd prefix cmd st s) = serialInterface s
  /\ state (sendCmd prefix cmd st s) = state s
  /\ lastSentCmd (sendCmd prefix cmd st s) = lastSentCmd s
  /\ lastSentState (sendCmd prefix cmd st s) = lastSentState s
  /\ lastSentTime (sendCmd prefix cmd st s) = lastSentTime s
  /\ sendingBuffer (sendCmd prefix cmd st s)
     = <[psWritePtr s := SendBuff.mk cmd st]> (sendingBuffer s)
  /\ psWritePtr (sendCmd prefix cmd st s) = (psWritePtr s + 1) mod 64
  /\ psReadPtr (sendCmd prefix cmd st s) = psReadPtr s.
Proof.
  intros H. apply is_IDLE_false in H. unfold sendCmd. rewrite H. simpl.
  repeat split; apply land_63.
Qed.

(** While the engine is busy, no number of calls transmits anything or
    changes the state, the record of the command in flight or the read
    pointer. *)
Lemma sendAll_busy (cmds : list SendBuff.t) (s : t) :
  state s <> IDLE ->
  serialInterface (sendAll prefix cmds s) = serialInterface s
  /\ state (sendAll prefix cmds s) = state s
  /\ lastSentCmd (sendAll prefix cmds s) = lastSentCmd s
  /\ psReadPtr (sendAll prefix cmds s) = psReadPtr s
  /\ length (sendingBuffer (sendAll prefix cmds s)) = length (sendingBuffer s).
Proof.
  revert s. induction cmds as [|e cmds IH]; intros s H; simpl.
  - repeat split.
  - destruct (sendCmd_busy (SendBuff.cmd e) (SendBuff.state e) s H)
      as (Hw & Hs & Hc & _ & _ & Hb & _ & Hr).
    destruct (IH (sendCmd prefix (SendBuff.cmd e) (SendBuff.state e) s)) as (A & B & C & D & E).
    { now rewrite Hs. }
    unfold sendAll in *. rewrite A, B, C, D, E, Hw, Hs, Hc, Hr, Hb.
    repeat split. apply length_insert.
Qed.

(** The slots a run of calls fills while the engine is busy, as long as the
    write pointer does not pass the end of the array. *)
Lemma sendAll_busy_fill (cmds : list SendBuff.t) (s : t) :
  state s <> IDLE ->
  length (sendingBuffer s) = 64 ->
  psWritePtr s < 64 ->
  psWritePtr s + length cmds <= 64 ->
  sendingBuffer (sendAll prefix cmds s)
  = take (psWritePtr s) (sendingBuffer s) ++ cmds
    ++ drop (psWritePtr s + length cmds) (sendingBuffer s)
  /\ psWritePtr (sendAll prefix cmds s) = (psWritePtr s + length cmds) mod 64.
Proof.
  revert s. induction cmds as [|e cmds IH]; intros s H Hlen Hlt Hw.
  - cbn [length sendAll fold_left app] in *.
    rewrite Nat.add_0_r, take_drop, Nat.mod_small by lia. split; reflexivity.
  - destruct (sendCmd_busy (SendBuff.cmd e) (SendBuff.state e) s H)
      as (_ & Hs & _ & _ & _ & Hb & Hp & _).
    unfold sendAll in *. cbn [length fold_left] in *.
    set (s1 := sendCmd prefix (SendBuff.cmd e) (SendBuff.state e) s) in *.
    assert (Hp1 : psWritePtr s1 = (psWritePtr s + 1) mod 64) by exact Hp.
    destruct e as [cmd st]; cbn [SendBuff.cmd SendBuff.state] in *.
    destruct cmds as [|e' cmds'].
    + cbn [fold_left length]. rewrite Hb, Hp1. split; [|reflexivity].
      rewrite insert_take_drop by lia. cbn [app].
      now replace (psWritePtr s + 1) with (S (psWritePtr s)) by lia.
    + remember (e' :: cmds') as cmds eqn:Ecmds.
      assert (Hnz : 0 < length cmds) by (subst cmds; cbn [length]; lia).
      rewrite Nat.mod_small in Hp1 by lia.
      destruct (IH s1) as (A & B).
      { now rewrite Hs. }
      { rewrite Hb, length_insert. exact Hlen. }
      { lia. }
      { lia. }
      rewrite A, B, Hp1, Hb. split.
      * rewrite drop_insert_lt by lia.
        replace (psWritePtr s + 1) with (S (psWritePtr s)) by lia.
        rewrite (take_S_r _ _ (SendBuff.mk cmd st))
          by (apply list_lookup_insert_eq; lia).
        rewrite take_insert_ge by lia.
        rewrite <- app_assoc. cbn [app length].
        now replace (S (psWritePtr s) + length cmds) with (psWritePtr s + S (length cmds)) by lia.
      * f_equal. lia.
Qed.

Lemma times_loop (n : nat) (s : t) : times n loop s = s.
Proof. induction n as [|n IH]; [reflexivity|]. unfold times in *. simpl. now rewrite IH. Qed.

Lemma unread_empty (s : t) :
  psWritePtr s = 0 -> psReadPtr s = 0 -> unread s = [].
Proof. intros Hw Hr. unfold unread. now rewrite Hw, Hr. Qed.

(** C2. [sendCmd(cmd, state)] on an idle engine writes prefix, command and
    terminator to the wire, records the command as the one in flight and
    takes the given state, leaving the queue alone; on a busy engine it
    stores the pair in the slot at the write pointer, advances that pointer
    modulo 64 and writes nothing to the wire; and however many calls follow
    while the engine is busy, the wire, the state and the command in flight
    stay as they are: the one command in flight is the only one sent. *)
Theorem sendCmd_sends_when_idle_and_queues_when_busy
    (cmd : string) (st : ICHIP_COMM_STATE) (s : t) :
  (state s = IDLE ->
     serialInterface (sendCmd prefix cmd st s) = serialInterface s +:+ frame prefix cmd
     /\ state (sendCmd prefix cmd st s) = st
     /\ lastSentCmd (sendCmd prefix cmd st s) = cmd
     /\ lastSentState (sendCmd prefix cmd st s) = st
     /\ sendingBuffer (sendCmd prefix cmd st s) = sendingBuffer s
     /\ psWritePtr (sendCmd prefix cmd st s) = psWritePtr s
     /\ psReadPtr (sendCmd prefix cmd st s) = psReadPtr s)
  /\ (state s <> IDLE ->
       serialInterface (sendCmd prefix cmd st s) = serialInterface s
       /\ state (sendCmd prefix cmd st s) = state s
       /\ lastSentCmd (sendCmd prefix cmd st s) = lastSentCmd s
       /\ lastSentState (sendCmd prefix cmd st s) = lastSentState s
       /\ sendingBuffer (sendCmd prefix cmd st s)
          = <[psWritePtr s := SendBuff.mk cmd st]> (sendingBuffer s)
       /\ psWritePtr (sendCmd prefix cmd st s) = (psWritePtr s + 1) mod 64
       /\ psReadPtr (sendCmd prefix cmd st s) = psReadPtr s)
  /\ (state s <> IDLE ->
       forall more : list SendBuff.t,
         serialInterface (sendAll prefix more (sendCmd prefix cmd st s)) = serialInterface s
         /\ state (sendAll prefix more (sendCmd prefix cmd st s)) = state s
         /\ lastSentCmd (sendAll prefix more (sendCmd prefix cmd st s)) = lastSentCmd s).
Proof.
  split; [|split].
  - intros H. destruct (sendCmd_idle cmd st s H) as (A & B & C & D & _ & E & F & G).
    repeat split; assumption.
  - intros H. destruct (sendCmd_busy cmd st s H) as (A & B & C & D & _ & E & F & G).
    repeat split; assumption.
  - intros H more.
    destruct (sendCmd_busy cmd st s H) as (A & B & C & _).
    destruct (sendAll_busy more (sendCmd prefix cmd st s)) as (A' & B' & C' & _).
    { now rewrite B. }
    rewrite A', B', C'. repeat split; assumption.
Qed.

(** C3, as the code has it.  From a busy engine whose ring is empty with both
    pointers at slot 0, 64 calls fill the 64 slots in order and bring the
    write pointer back onto the read pointer, so that the ring reads as
    empty; the 65th call overwrites slot 0, which held the first of the 64
    commands, and leaves the other 63 slots and the read pointer as they
    were: one entry, the newest, lies between the pointers.  Nothing is
    written to the wire. *)
Theorem sixty_fifth_command_overwrites_slot_0
    (cmds : list SendBuff.t) (c : SendBuff.t) (s : t) :
  state s <> IDLE ->
  length (sendingBuffer s) = 64 ->
  psWritePtr s = 0 ->
  psReadPtr s = 0 ->
  length cmds = 64 ->
  let s64 := sendAll prefix cmds s in
  let s65 := sendCmd prefix (SendBuff.cmd c) (SendBuff.state c) s64 in
  sendingBuffer s64 = cmds
  /\ psWritePtr s64 = 0 /\ psReadPtr s64 = 0 /\ unread s64 = []
  /\ sendingBuffer s65 = c :: tail cmds
  /\ psWritePtr s65 = 1 /\ psReadPtr s65 = 0 /\ unread s65 = [c]
  /\ serialInterface s65 = serialInterface s.
Proof.
  intros H Hlen Hw Hr Hc s64 s65.
  destruct (sendAll_busy_fill cmds s H Hlen) as (A & B); [lia | lia |].
  destruct (sendAll_busy cmds s H) as (W & S & _ & R & L).
  fold s64 in A, B, W, S, R, L.
  rewrite Hw, Hc in A, B. cbn [take app Nat.add] in A.
  rewrite drop_ge, app_nil_r in A by lia.
  change (64 mod 64) with 0 in B. rewrite Hr in R.
  assert (Hbusy : state s64 <> IDLE) by now rewrite S.
  destruct (sendCmd_busy (SendBuff.cmd c) (SendBuff.state c) s64 Hbusy)
    as (W' & _ & _ & _ & _ & Bf & P & R').
  fold s65 in W', Bf, P, R'.
  rewrite B in Bf, P. rewrite A in Bf. change ((0 + 1) mod 64) with 1 in P.
  rewrite R in R'.
  assert (E : sendingBuffer s65 = c :: tail cmds).
  { rewrite Bf. destruct cmds as [|c0 cmds']; [discriminate|]. now destruct c. }
  repeat split; try assumption.
  - now apply unread_empty.
  - unfold unread. rewrite P, R', E. reflexivity.
  - now rewrite W'.
Qed.

(** C4, as the code has it.  From a busy engine whose ring is empty with
    both pointers at slot 0, fewer than 64 calls leave between the read
    pointer and the write pointer exactly the commands given, in the order
    of the calls, and none of them has been written to the wire. *)
Theorem buffered_commands_are_kept_in_order (cmds : list SendBuff.t) (s : t) :
  state s <> IDLE ->
  length (sendingBuffer s) = 64 ->
  psWritePtr s = 0 ->
  psReadPtr s = 0 ->
  length cmds < 64 ->
  unread (sendAll prefix cmds s) = cmds
  /\ serialInterface (sendAll prefix cmds s) = serialInterface s
  /\ state (sendAll prefix cmds s) = state s.
Proof.
  intros H Hlen Hw Hr Hc.
  destruct (sendAll_busy_fill cmds s H Hlen) as (A & B); [lia | lia |].
  destruct (sendAll_busy cmds s H) as (W & S & _ & R & _).
  rewrite Hw in A, B. rewrite take_0 in A. cbn [app Nat.add] in A, B.
  rewrite Nat.mod_small in B by lia.
  split; [|split; assumption].
  unfold unread, QUEUE_SLOTS. rewrite A, B, R, Hr.
  rewrite land_63, Nat.sub_0_r.
  replace ((length cmds + 64) mod 64) with (length cmds)
    by (rewrite <- (Nat.mul_1_l 64) at 1; rewrite Nat.Div0.mod_add, Nat.mod_small; lia).
  rewrite drop_0, take_0, app_nil_r.
  now rewrite take_app_length.
Qed.

End WithPrefix.

(** C1, on the code.  [loop] does nothing: whatever the peripheral has
    answered, after any number of calls the state is the one the command in
    flight set, the read pointer has not moved, the buffered entries are
    still buffered and the wire holds what it held. *)
Theorem loop_leaves_the_command_in_flight (s : t) (n : nat) :
  state (times n loop s) = state s
  /\ psReadPtr (times n loop s) = psReadPtr s
  /\ unread (times n loop s) = unread s
  /\ serialInterface (times n loop s) = serialInterface s.
Proof. rewrite times_loop. repeat split. Qed.

(** With [WNXT] in flight and the commands [A] and [B] buffered in that
    order, no number of calls of [loop] delivers either of them: the wire
    holds the frame of [WNXT] alone and both stay in the ring. *)
Lemma buffered_commands_stay_in_the_ring (prefix : string) (n : nat) :
  let A := SendBuff.mk "A" SET_PARAM in
  let B := SendBuff.mk "B" SET_PARAM in
  let s := times n loop (sendAll prefix [A; B] (getNextParam prefix (setup power_on))) in
  serialInterface s = frame prefix "WNXT"
  /\ state s = GET_PARAM
  /\ unread s = [A; B].
Proof.
  intros A B s. subst s. rewrite times_loop.
  assert (Hidle : state (setup power_on) = IDLE) by reflexivity.
  destruct (sendCmd_idle prefix "WNXT" GET_PARAM (setup power_on) Hidle)
    as (W & S & _).
  fold (getNextParam prefix (setup power_on)) in W, S.
  destruct (sendAll_busy prefix [A; B] (getNextParam prefix (setup power_on)))
    as (W' & S' & _).
  { rewrite S. discriminate. }
  split; [|split].
  - rewrite W', W. reflexivity.
  - now rewrite S', S.
  - vm_compute. reflexivity.
Qed.

(** C5, on the code.  For socket 2 and the five bytes [hello], on an idle
    engine, the command built and sent is [SSND%%:002,5:hello], with two
    percent signs: the command recorded as in flight and the frame on the
    wire both carry them. *)
Theorem sendToSocket_writes_two_percent_signs (prefix : string) :
  option_map lastSentCmd (sendToSocket prefix 2 "hello" (setup power_on))
  = Some "SSND%%:002,5:hello"%string
  /\ option_map serialInterface (sendToSocket prefix 2 "hello" (setup power_on))
     = Some (frame prefix "SSND%%:002,5:hello")
  /\ option_map lastSentCmd (sendToSocket prefix 2 "hello" (setup power_on))
     <> Some "SSND%:002,5:hello"%string.
Proof.
  assert (E : sendToSocket prefix 2 "hello" (setup power_on)
              = Some (sendCmd prefix "SSND%%:002,5:hello" SEND_SOCKET (setup power_on)))
    by reflexivity.
  rewrite E. cbn [option_map].
  assert (Hidle : state (setup power_on) = IDLE) by reflexivity.
  destruct (sendCmd_idle prefix "SSND%%:002,5:hello" SEND_SOCKET (setup power_on) Hidle)
    as (W & _ & C & _).
  rewrite W, C. repeat split. discriminate.
Qed.

(** The first instance is an idle engine sending [WNXT]; the second is that
    engine, now busy, asked to send [DOWN]. *)
Lemma sendCmd_sends_when_idle_and_queues_when_busy_witness :
  serialInterface (sendCmd "AT+i" "WNXT" GET_PARAM (setup power_on))
  = serialInterface (setup power_on) +:+ frame "AT+i" "WNXT"
  /\ sendingBuffer (sendCmd "AT+i" "DOWN" SET_PARAM (getNextParam "AT+i" (setup power_on)))
     = <[0 := SendBuff.mk "DOWN" SET_PARAM]> (sendingBuffer (getNextParam "AT+i" (setup power_on))).
Proof.
  split.
  - apply (sendCmd_sends_when_idle_and_queues_when_busy
             "AT+i" "WNXT" GET_PARAM (setup power_on)).
    reflexivity.
  - apply (sendCmd_sends_when_idle_and_queues_when_busy
             "AT+i" "DOWN" SET_PARAM (getNextParam "AT+i" (setup power_on))).
    discriminate.
Defined.

(** The engine with [WNXT] in flight takes [c1] ... [c64] and then [c65]. *)
Lemma sixty_fifth_command_overwrites_slot_0_witness :
  let s := getNextParam "AT+i" (setup power_on) in
  let c65 := SendBuff.mk "c65" SET_PARAM in
  let s64 := sendAll "AT+i" (numbered 64) s in
  let s65 := sendCmd "AT+i" (SendBuff.cmd c65) (SendBuff.state c65) s64 in
  state s <> IDLE
  /\ length (numbered 64) = 64
  /\ sendingBuffer s64 = numbered 64
  /\ psWritePtr s64 = 0 /\ psReadPtr s64 = 0 /\ unread s64 = []
  /\ sendingBuffer s65 = c65 :: tail (numbered 64)
  /\ psWritePtr s65 = 1 /\ psReadPtr s65 = 0 /\ unread s65 = [c65]
  /\ serialInterface s65 = serialInterface s.
Proof.
  intros s c65 s64 s65.
  split; [discriminate|]. split; [reflexivity|].
  apply (sixty_fifth_command_overwrites_slot_0 "AT+i" (numbered 64) c65 s);
    [discriminate | reflexivity | reflexivity | reflexivity | reflexivity].
Defined.

(** The engine with [WNXT] in flight takes [c1], [c2] and [c3]. *)
Lemma buffered_commands_are_kept_in_order_witness :
  let s := getNextParam "AT+i" (setup power_on) in
  state s <> IDLE
  /\ unread (sendAll "AT+i" (numbered 3) s) = numbered 3
  /\ serialInterface (sendAll "AT+i" (numbered 3) s) = serialInterface s
  /\ state (sendAll "AT+i" (numbered 3) s) = state s.
Proof.
  intros s. split; [discriminate|].
  apply (buffered_commands_are_kept_in_order "AT+i" (numbered 3) s);
    [discriminate | reflexivity | reflexivity | reflexivity | cbn; lia].
Defined.

(** C4, as stated, fails at the capacity: 64 commands are a sequence that
    does not exceed it, and once they are stored the write pointer is back
    on the read pointer, so that a reader finds no command, not the 64 in
    their order. *)
Lemma sixty_four_commands_read_as_none :
  let s := getNextParam "AT+i" (setup power_on) in
  let s64 := sendAll "AT+i" (numbered 64) s in
  length (numbered 64) = 64
  /\ psWritePtr s64 = psReadPtr s64
  /\ unread s64 = []
  /\ unread s64 <> numbered 64.
Proof.
  vm_compute. repeat split. discriminate.
Qed.

(** C3, as stated, fails: after the 65th command the read pointer is where it
    was, at slot 0, and a single entry lies between the pointers; the
    pointers of a 64-slot ring advanced under the mask 63 are never 64 slots
    apart. *)
Lemma read_pointer_does_not_advance_on_overflow :
  let s := getNextParam "AT+i" (setup power_on) in
  let s64 := sendAll "AT+i" (numbered 64) s in
  let s65 := sendCmd "AT+i" "c65" SET_PARAM s64 in
  psReadPtr s65 = psReadPtr s64
  /\ length (unread s64) = 0
  /\ length (unread s65) = 1
  /\ ~ (psReadPtr s65 = (psReadPtr s64 + 1) mod 64 /\ length (unread s65) = 64).
Proof.
  vm_compute. repeat split. intros [H _]. discriminate H.
Qed.

End EngineFacts.

(** * Properties of the console *)

Module ConsoleFacts.
Import SerialConsole.

Lemma take_take_app {A : Type} (n : nat) (l l' : list A) :
  take n (take n l ++ l') = take n (l ++ l').
Proof.
  destruct (Nat.le_gt_cases (length l) n) as [H|H].
  - now rewrite (take_ge l n) by lia.
  - rewrite (take_app_le l l' n) by lia.
    rewrite take_app_le by (rewrite length_take; lia).
    now rewrite take_take, Nat.min_id.
Qed.

Lemma byte_of_ascii (b : ascii) :
  ascii_of_nat (Z.to_nat (Z.of_nat (nat_of_ascii b) mod 256)) = b.
Proof.
  pose proof (nat_ascii_bounded b) as Hb.
  rewrite Z.mod_small by lia.
  now rewrite Nat2Z.id, ascii_nat_embedding.
Qed.

Lemma byte_not (b : ascii) (n : nat) :
  b <> ascii_of_nat n -> (Z.of_nat (nat_of_ascii b) =? Z.of_nat n)%Z = false.
Proof.
  intros H. apply Z.eqb_neq. intros E. apply Nat2Z.inj in E.
  apply H. now rewrite <- E, ascii_nat_embedding.
Qed.

Section WithEnv.

Variable env : Env.

(** A byte that is no terminator is stored at the write offset, which then
    advances, but not beyond 79. *)
Lemma serialEvent_byte (b : ascii) (c : t) :
  non_terminator b ->
  serialEvent env (Z.of_nat (nat_of_ascii b)) c
  = Some (set_ptrBuffer (Nat.min (ptrBuffer c + 1) 79)
            (set_cmdBuffer (<[ptrBuffer c := b]> (cmdBuffer c)) c)).
Proof.
  intros [Hlf Hcr]. unfold serialEvent.
  replace (Z.of_nat (nat_of_ascii b) =? -1)%Z with false by (symmetry; apply Z.eqb_neq; lia).
  change 10%Z with (Z.of_nat 10). change 13%Z with (Z.of_nat 13).
  rewrite (byte_not b 10 Hlf), (byte_not b 13 Hcr). cbn [orb].
  rewrite byte_of_ascii. f_equal.
  unfold set_ptrBuffer, set_cmdBuffer. cbn [ptrBuffer cmdBuffer heartbeat handlingEvent state loopcount cancel events].
  destruct (Nat.ltb_spec 79 (ptrBuffer c + 1)) as [H|H].
  - now rewrite Nat.min_r by lia.
  - now rewrite Nat.min_l by lia.
Qed.

Lemma line_after_byte (b : ascii) (c : t) :
  ptrBuffer c <= 79 ->
  length (cmdBuffer c) = 80 ->
  line (set_ptrBuffer (Nat.min (ptrBuffer c + 1) 79)
          (set_cmdBuffer (<[ptrBuffer c := b]> (cmdBuffer c)) c))
  = take 79 (line c ++ [b]).
Proof.
  intros Hp Hlen. unfold line, set_ptrBuffer, set_cmdBuffer. cbn [ptrBuffer cmdBuffer].
  destruct (Nat.eq_dec (ptrBuffer c) 79) as [E|E].
  - rewrite E. change (Nat.min (79 + 1) 79) with 79.
    rewrite take_insert_ge by lia.
    rewrite take_app_le by (rewrite length_take; lia).
    now rewrite take_take.
  - rewrite Nat.min_l by lia.
    rewrite (take_ge (take _ _ ++ [b])) by (rewrite length_app, length_take; cbn [length]; lia).
    replace (ptrBuffer c + 1) with (S (ptrBuffer c)) by lia.
    rewrite (take_S_r _ _ b) by (apply list_lookup_insert_eq; lia).
    now rewrite take_insert_ge by lia.
Qed.

(** What a run of bytes without a terminator leaves in the console. *)
Lemma feed_bytes (bytes : list ascii) (c : t) :
  Forall non_terminator bytes ->
  ptrBuffer c <= 79 ->
  length (cmdBuffer c) = 80 ->
  exists c',
    feed env bytes c = Some c'
    /\ ptrBuffer c' = Nat.min (ptrBuffer c + length bytes) 79
    /\ length (cmdBuffer c') = 80
    /\ line c' = take 79 (line c ++ bytes)
    /\ events c' = events c
    /\ state c' = state c
    /\ handlingEvent c' = handlingEvent c.
Proof.
  intros Hb. revert c. induction Hb as [|b bytes Hnt Hb IH]; intros c Hp Hlen.
  - exists c. cbn [feed length]. rewrite Nat.add_0_r, Nat.min_l, app_nil_r by lia.
    repeat split; try assumption. unfold line. rewrite take_take. f_equal. lia.
  - cbn [feed]. rewrite (serialEvent_byte b c Hnt).
    set (c1 := set_ptrBuffer _ _).
    destruct (IH c1) as (c' & F & P & L & Ln & Ev & St & He).
    { subst c1. cbn [set_ptrBuffer ptrBuffer]. lia. }
    { subst c1. cbn [set_ptrBuffer set_cmdBuffer cmdBuffer]. now rewrite length_insert. }
    exists c'. split; [exact F|].
    assert (P1 : ptrBuffer c1 = Nat.min (ptrBuffer c + 1) 79) by reflexivity.
    split; [rewrite P, P1; cbn [length]; lia|].
    split; [exact L|].
    split.
    + rewrite Ln. subst c1. rewrite (line_after_byte b c Hp Hlen).
      rewrite take_take_app, <- app_assoc. reflexivity.
    + rewrite Ev, St, He. repeat split.
Qed.

Lemma feed_app (a b : list ascii) (c : t) :
  feed env (a ++ b) c
  = match feed env a c with Some c1 => feed env b c1 | None => None end.
Proof.
  revert c. induction a as [|x a IH]; intros c; cbn [app feed]; [reflexivity|].
  destruct (serialEvent env _ c); [apply IH | reflexivity].
Qed.

Lemma feed_terminator (c : t) :
  feed env [CR] c = option_map (set_ptrBuffer 0) (handleConsoleCmd env c).
Proof.
  cbn [feed]. change (Z.of_nat (nat_of_ascii CR)) with 13%Z.
  unfold serialEvent. cbn [Z.eqb orb].
  now destruct (handleConsoleCmd env c).
Qed.

(** C8. Whatever bytes arrive, none of them a terminator, at a console whose
    line is empty, the write offset is at most 79 after each of them; the
    line the console holds afterwards is the first 79 of the bytes, no event
    has been caused, and that line is the one processed when the terminator
    arrives. *)
Theorem line_buffer_keeps_the_first_79_bytes (bytes : list ascii) (c : t) :
  Forall non_terminator bytes ->
  ptrBuffer c = 0 ->
  length (cmdBuffer c) = 80 ->
  (forall k : nat, exists ck, feed env (take k bytes) c = Some ck /\ ptrBuffer ck <= 79)
  /\ exists c',
       feed env bytes c = Some c'
       /\ ptrBuffer c' = Nat.min (length bytes) 79
       /\ line c' = take 79 bytes
       /\ events c' = events c
       /\ feed env (bytes ++ [CR]) c
          = option_map (set_ptrBuffer 0) (handleConsoleCmd env c').
Proof.
  intros Hb Hp Hlen. split.
  - intros k.
    destruct (feed_bytes (take k bytes) c) as (ck & F & P & _); [| lia | exact Hlen |].
    { apply Forall_take. exact Hb. }
    exists ck. split; [exact F | lia].
  - destruct (feed_bytes bytes c Hb) as (c' & F & P & _ & Ln & Ev & _); [lia | exact Hlen |].
    exists c'. rewrite Hp in P. unfold line at 2 in Ln. rewrite Hp in Ln.
    cbn [take app Nat.add] in Ln, P.
    repeat split; try assumption.
    rewrite feed_app, F. apply feed_terminator.
Qed.

Lemma char_at_middle (pre rest : list ascii) (x : ascii) :
  char_at (pre ++ x :: rest) (length pre) = x.
Proof. unfold char_at. now rewrite list_lookup_middle by reflexivity. Qed.

(** The loop that collects the key stops at the first [=], or at the end of
    the line when there is none, with the characters passed over as the
    key. *)
Lemma keyLoop_run (k : list ascii) :
  forall (n : nat) (pre rest : list ascii) (acc : string),
    Forall (fun ch => ch <> "="%char) k ->
    n = length k \/ (length k < n /\ exists r, rest = "="%char :: r) ->
    keyLoop n (pre ++ k ++ rest) (length pre) acc
    = (length pre + length k, acc +:+ key_string k).
Proof.
  induction k as [|x k IH]; intros n pre rest acc Hk Hn.
  - cbn [app length key_string]. rewrite Nat.add_0_r, append_nil_r.
    destruct Hn as [-> | (Hlt & r & ->)]; [reflexivity|].
    destruct n as [|n]; [cbn [length] in Hlt; lia|].
    cbn [keyLoop]. rewrite char_at_middle. reflexivity.
  - apply Forall_cons in Hk as [Hx Hk].
    destruct n as [|n]; [cbn [length] in Hn; destruct Hn as [Hn | [Hn _]]; lia|].
    cbn [keyLoop app]. rewrite !char_at_middle.
    rewrite (ascii_eqb_false _ _ Hx).
    replace (pre ++ x :: k ++ rest) with ((pre ++ [x]) ++ k ++ rest)
      by (now rewrite <- app_assoc).
    replace (S (length pre)) with (length (pre ++ [x]))
      by (rewrite length_app; cbn [length]; lia).
    rewrite IH.
    + rewrite length_app. cbn [length key_string]. rewrite append_assoc.
      f_equal. lia.
    + exact Hk.
    + cbn [length] in Hn. destruct Hn as [Hn | (Hn & r & Hr)]; [left; lia|].
      right. split; [lia | now exists r].
Qed.

Lemma value_text_None (l : list ascii) :
  value_text l = None -> Forall (fun ch => ch <> "="%char) l.
Proof.
  induction l as [|x l IH]; cbn [value_text]; intros H; [constructor|].
  destruct (Ascii.eqb x "=") eqn:E; [discriminate|].
  constructor; [now apply Ascii.eqb_neq | now apply IH].
Qed.

Lemma value_text_Some (l v : list ascii) :
  value_text l = Some v ->
  exists k, l = k ++ "="%char :: v /\ Forall (fun ch => ch <> "="%char) k.
Proof.
  induction l as [|x l IH]; cbn [value_text]; intros H; [discriminate|].
  destruct (Ascii.eqb x "=") eqn:E.
  - apply Ascii.eqb_eq in E. injection H as ->. subst x. now exists [].
  - destruct (IH H) as (k & -> & Hk). exists (x :: k). split; [reflexivity|].
    constructor; [now apply Ascii.eqb_neq | exact Hk].
Qed.

(** The buffer once the NUL is in place: the line, the NUL, and the bytes
    that lay beyond. *)
Lemma buffer_terminated (c : t) :
  ptrBuffer c <= 79 ->
  length (cmdBuffer c) = 80 ->
  <[ptrBuffer c := NUL]> (cmdBuffer c)
  = line c ++ NUL :: drop (S (ptrBuffer c)) (cmdBuffer c)
  /\ length (line c) = ptrBuffer c.
Proof.
  intros Hp Hlen. unfold line. split.
  - apply insert_take_drop. lia.
  - rewrite length_take. lia.
Qed.

Lemma handleConfigCmd_short (c : t) :
  ptrBuffer c < 6 -> handleConfigCmd env c = c.
Proof.
  intros H. unfold handleConfigCmd.
  now replace (ptrBuffer c <? 6) with true by (symmetry; apply Nat.ltb_lt; exact H).
Qed.

(** A line of six bytes or more with a value after its first [=]: the key,
    the value text and its number reach the dispatch. *)
Lemma handleConfigCmd_parsed (k v : list ascii) (c : t) :
  Forall (fun ch => ch <> "="%char) k ->
  v <> [] ->
  line c = k ++ "="%char :: v ->
  6 <= ptrBuffer c ->
  ptrBuffer c <= 79 ->
  length (cmdBuffer c) = 80 ->
  exists rest,
    handleConfigCmd env c
    = dispatchConfigCmd env (toUpperCase (key_string k)) (v ++ NUL :: rest) (strtol v)
        (set_cmdBuffer (<[ptrBuffer c := NUL]> (cmdBuffer c)) c).
Proof.
  intros Hk Hv Hline H6 H79 Hlen.
  destruct (buffer_terminated c H79 Hlen) as [Hbuf Hl].
  exists (drop (S (ptrBuffer c)) (cmdBuffer c)).
  set (rest := drop (S (ptrBuffer c)) (cmdBuffer c)) in *.
  rewrite Hline in Hbuf, Hl. rewrite length_app in Hl. cbn [length] in Hl.
  assert (Hvl : 0 < length v) by (destruct v; [congruence | cbn [length]; lia]).
  unfold handleConfigCmd.
  replace (ptrBuffer c <? 6) with false by (symmetry; apply Nat.ltb_ge; exact H6).
  cbn [set_cmdBuffer ptrBuffer cmdBuffer].
  pose proof (keyLoop_run k (ptrBuffer c) [] ("="%char :: v ++ NUL :: rest) EmptyString Hk) as HK.
  cbn [app length Nat.add] in HK.
  assert (E : <[ptrBuffer c := NUL]> (cmdBuffer c) = k ++ "="%char :: v ++ NUL :: rest).
  { rewrite Hbuf, <- app_assoc. reflexivity. }
  rewrite E at 1. rewrite HK by (right; split; [lia | eauto]).
  replace (ptrBuffer c <=? S (length k)) with false by (symmetry; apply Nat.leb_gt; lia).
  assert (D : drop (S (length k)) (<[ptrBuffer c := NUL]> (cmdBuffer c)) = v ++ NUL :: rest).
  { rewrite E. replace (S (length k)) with (length (k ++ ["="%char]))
      by (rewrite length_app; cbn [length]; lia).
    replace (k ++ "="%char :: v ++ NUL :: rest) with ((k ++ ["="%char]) ++ v ++ NUL :: rest)
      by (now rewrite <- app_assoc).
    apply drop_app_length. }
  rewrite D, strtol_app_NUL. reflexivity.
Qed.

(** A line of six bytes or more without a value gets the usage hint and
    nothing else. *)
Lemma handleConfigCmd_no_value (c : t) :
  no_value (line c) ->
  6 <= ptrBuffer c ->
  ptrBuffer c <= 79 ->
  length (cmdBuffer c) = 80 ->
  events (handleConfigCmd env c) = events c ++ usage_hint.
Proof.
  intros Hnv H6 H79 Hlen.
  destruct (buffer_terminated c H79 Hlen) as [Hbuf Hl].
  set (rest := drop (S (ptrBuffer c)) (cmdBuffer c)) in *.
  unfold handleConfigCmd.
  replace (ptrBuffer c <? 6) with false by (symmetry; apply Nat.ltb_ge; exact H6).
  cbn [set_cmdBuffer ptrBuffer cmdBuffer].
  destruct Hnv as [Hn | Hs].
  - apply value_text_None in Hn.
    pose proof (keyLoop_run (line c) (ptrBuffer c) [] (NUL :: rest) EmptyString Hn) as HK.
    cbn [app length Nat.add] in HK.
    rewrite Hbuf, HK by (left; now rewrite Hl).
    rewrite Hl.
    replace (ptrBuffer c <=? S (ptrBuffer c)) with true by (symmetry; apply Nat.leb_le; lia).
    reflexivity.
  - apply value_text_Some in Hs as (k & Hline & Hk).
    rewrite Hline in Hbuf, Hl. rewrite length_app in Hl. cbn [length] in Hl.
    pose proof (keyLoop_run k (ptrBuffer c) [] ("="%char :: NUL :: rest) EmptyString Hk) as HK.
    cbn [app length Nat.add] in HK.
    rewrite Hbuf, <- app_assoc. cbn [app].
    rewrite HK by (right; split; [lia | eauto]).
    replace (ptrBuffer c <=? S (length k)) with true by (symmetry; apply Nat.leb_le; lia).
    reflexivity.
Qed.

(** The dispatch on one of the keys that set a parameter of the peripheral:
    besides a line in the log, the command made of the value and then
    [DOWN]; no notification follows. *)
Lemma dispatch_wifi_key (KEY tr : string) (value : list ascii) (newValue : Z) (c : t) :
  In (KEY, tr) wifiKeys ->
  exists l,
    events (dispatchConfigCmd env KEY value newValue c) = events c ++ l
    /\ effects l = [ sendMessage (MSG_COMMAND (tr +:+ String_of_cstr value));
                     sendMessage (MSG_COMMAND "DOWN") ].
Proof.
  unfold wifiKeys. cbn [In].
  intros [H | [H | [H | [H | [H | [H | []]]]]]]; injection H as <- <-;
    eexists; split; reflexivity.
Qed.

(** The dispatch on [OUTPUT] with a number that is not below 8. *)
Lemma dispatch_output_out_of_range (value : list ascii) (newValue : Z) (c : t) :
  (8 <= newValue)%Z ->
  events (dispatchConfigCmd env "OUTPUT" value newValue c)
  = events c ++ [ console "Unknown command" [] ].
Proof.
  intros H. unfold dispatchConfigCmd.
  replace (newValue <? 8)%Z with false by (symmetry; apply Z.ltb_ge; exact H).
  reflexivity.
Qed.

Lemma effects_app (a b : list Event) : effects (a ++ b) = effects a ++ effects b.
Proof. unfold effects. apply List.filter_app. Qed.

Lemma toUpperCase_length (s : string) : String.length (toUpperCase s) = String.length s.
Proof. induction s as [|x s IH]; cbn [toUpperCase String.length]; [reflexivity | now rewrite IH]. Qed.

Lemma key_string_length (k : list ascii) : String.length (key_string k) <= length k.
Proof.
  induction k as [|x k IH]; cbn [key_string length]; [reflexivity|].
  unfold String_of_char. destruct (Ascii.eqb x NUL).
  - change (EmptyString +:+ key_string k) with (key_string k). lia.
  - rewrite append_cons. cbn [String.length].
    change (EmptyString +:+ key_string k) with (key_string k). lia.
Qed.

(** What [handleConsoleCmd] does with a line that is not one byte long. *)
Lemma handleConsoleCmd_config (c : t) :
  state c = STATE_ROOT_MENU env ->
  ptrBuffer c <> 1 ->
  handleConsoleCmd env c
  = Some (set_handlingEvent false (handleConfigCmd env (set_handlingEvent true c))).
Proof.
  intros Hs Hp. unfold handleConsoleCmd.
  cbn [set_handlingEvent state ptrBuffer].
  rewrite Hs, Z.eqb_refl.
  replace (ptrBuffer c =? 1) with false by (symmetry; apply Nat.eqb_neq; exact Hp).
  reflexivity.
Qed.

(** C6. The bytes of [SSID=MyNet] and a carriage return, arriving at a
    console in its root menu whose line is empty, cause a line in the log,
    the command [WLSI=MyNet] and the command [DOWN], in this order, and
    nothing else: no notification of a changed configuration is sent. *)
Theorem SSID_MyNet_sends_WLSI_then_DOWN (c : t) :
  ptrBuffer c = 0 ->
  length (cmdBuffer c) = 80 ->
  state c = STATE_ROOT_MENU env ->
  exists c',
    feed env (list_ascii_of_string "SSID=MyNet" ++ [CR]) c = Some c'
    /\ events c'
       = events c
         ++ [ info ("Sent " +:+ quoted "%s" +:+ " to WiReach wireless LAN device")
                   [A_str "WLSI=MyNet"];
              sendMessage (MSG_COMMAND "WLSI=MyNet");
              sendMessage (MSG_COMMAND "DOWN") ]
    /\ effects (events c')
       = effects (events c)
         ++ [ sendMessage (MSG_COMMAND "WLSI=MyNet"); sendMessage (MSG_COMMAND "DOWN") ]
    /\ ptrBuffer c' = 0.
Proof.
  intros Hp Hlen Hs.
  destruct (feed_bytes (list_ascii_of_string "SSID=MyNet") c)
    as (c1 & F & P & L & Ln & Ev & St & _); [| lia | exact Hlen |].
  { repeat constructor; discriminate. }
  rewrite Hp in P. unfold line at 2 in Ln. rewrite Hp in Ln.
  cbn [take app length list_ascii_of_string Nat.add Nat.min] in Ln, P.
  rewrite feed_app, F, feed_terminator.
  rewrite handleConsoleCmd_config; [| now rewrite St | rewrite P; lia].
  set (c2 := set_handlingEvent true c1).
  destruct (handleConfigCmd_parsed
              (list_ascii_of_string "SSID") (list_ascii_of_string "MyNet") c2)
    as (rest & E).
  { repeat constructor; discriminate. }
  { discriminate. }
  { exact Ln. }
  { subst c2. cbn [set_handlingEvent ptrBuffer]. rewrite P. lia. }
  { subst c2. cbn [set_handlingEvent ptrBuffer]. rewrite P. lia. }
  { exact L. }
  rewrite E. eexists. split; [reflexivity|].
  assert (Ev' : events (set_cmdBuffer (<[ptrBuffer c2 := NUL]> (cmdBuffer c2)) c2) = events c)
    by exact Ev.
  revert Ev'. generalize (set_cmdBuffer (<[ptrBuffer c2 := NUL]> (cmdBuffer c2)) c2).
  generalize (strtol (list_ascii_of_string "MyNet")).
  intros newValue c3 Ev'.
  change (toUpperCase (key_string (list_ascii_of_string "SSID"))) with "SSID"%string.
  change (dispatchConfigCmd env "SSID" (list_ascii_of_string "MyNet" ++ NUL :: rest) newValue c3)
    with (wifiParam "WLSI" (list_ascii_of_string "MyNet" ++ NUL :: rest) c3).
  unfold wifiParam, String_of_cstr. rewrite cstr_app_NUL.
  cbn [events set_ptrBuffer set_handlingEvent emit ptrBuffer].
  rewrite Ev'. split; [reflexivity|]. split; [|reflexivity].
  rewrite effects_app. reflexivity.
Qed.

(** C7, as the code has it.  A line that is not one byte long, in the root
    menu, that is shorter than 6 bytes or has no value after its [=]: when it
    is shorter than 6 bytes nothing at all is printed, and otherwise the two
    lines of the usage hint are; either way no command or notification is
    sent, no value is written and no output is set. *)
Theorem malformed_line_changes_nothing (c : t) :
  state c = STATE_ROOT_MENU env ->
  ptrBuffer c <> 1 ->
  ptrBuffer c <= 79 ->
  length (cmdBuffer c) = 80 ->
  ptrBuffer c < 6 \/ no_value (line c) ->
  exists c',
    handleConsoleCmd env c = Some c'
    /\ events c' = events c ++ (if ptrBuffer c <? 6 then [] else usage_hint)
    /\ effects (events c') = effects (events c).
Proof.
  intros Hs H1 H79 Hlen Hbad.
  rewrite (handleConsoleCmd_config c Hs H1). eexists. split; [reflexivity|].
  cbn [set_handlingEvent events].
  destruct (Nat.ltb_spec (ptrBuffer c) 6) as [Hlt | Hge].
  - rewrite handleConfigCmd_short by exact Hlt.
    cbn [set_handlingEvent events]. now rewrite app_nil_r.
  - destruct Hbad as [Hlt | Hnv]; [lia|].
    rewrite handleConfigCmd_no_value; try assumption.
    cbn [set_handlingEvent events]. split; [reflexivity|].
    rewrite effects_app. cbn. now rewrite app_nil_r.
Qed.

(** C9, as the code has it.  For each of the keys [WIREACH], [SSID], [IP],
    [CHANNEL], [SECURITY] and [PWD], written in either case, a line of 6 to
    79 bytes made of the key, [=] and a value that is not empty causes,
    besides lines in the log, the command for that key (the value as a C
    string, after [WLSI=], [DIP=], [WLCH=], [WLPP=] or [WPWD=], or alone for
    [WIREACH]) and then the command [DOWN]; nothing else is sent, written or
    set, so no notification of a changed configuration follows. *)
Theorem wifi_key_sends_its_command_then_DOWN
    (KEY tr : string) (k v : list ascii) (c : t) :
  In (KEY, tr) wifiKeys ->
  Forall (fun ch => ch <> "="%char) k ->
  toUpperCase (key_string k) = KEY ->
  v <> [] ->
  line c = k ++ "="%char :: v ->
  6 <= ptrBuffer c ->
  ptrBuffer c <= 79 ->
  length (cmdBuffer c) = 80 ->
  exists l,
    events (handleConfigCmd env c) = events c ++ l
    /\ effects l = [ sendMessage (MSG_COMMAND (tr +:+ String_of_cstr v));
                     sendMessage (MSG_COMMAND "DOWN") ].
Proof.
  intros Hin Hk Hkey Hv Hline H6 H79 Hlen.
  destruct (handleConfigCmd_parsed k v c Hk Hv Hline H6 H79 Hlen) as (rest & E).
  rewrite E, Hkey.
  destruct (dispatch_wifi_key KEY tr (v ++ NUL :: rest) (strtol v)
              (set_cmdBuffer (<[ptrBuffer c := NUL]> (cmdBuffer c)) c) Hin)
    as (l & El & Ef).
  exists l. split; [exact El|].
  rewrite Ef. unfold String_of_cstr. now rewrite cstr_app_NUL.
Qed.

(** C10. A line made of the key [OUTPUT], written in either case, [=] and a
    value that [strtol] turns into a number not below 8 prints
    [Unknown command] and causes nothing else: no output is set and no
    notification is sent. *)
Theorem OUTPUT_of_8_or_more_is_an_unknown_command (k v : list ascii) (c : t) :
  Forall (fun ch => ch <> "="%char) k ->
  toUpperCase (key_string k) = "OUTPUT"%string ->
  line c = k ++ "="%char :: v ->
  (8 <= strtol v)%Z ->
  ptrBuffer c <= 79 ->
  length (cmdBuffer c) = 80 ->
  events (handleConfigCmd env c) = events c ++ [ console "Unknown command" [] ]
  /\ effects (events (handleConfigCmd env c)) = effects (events c).
Proof.
  intros Hk Hkey Hline H8 H79 Hlen.
  assert (Hv : v <> []) by (intros ->; vm_compute in H8; now apply H8).
  assert (H6 : 6 <= ptrBuffer c).
  { destruct (buffer_terminated c H79 Hlen) as [_ Hl].
    rewrite Hline, length_app in Hl. cbn [length] in Hl.
    pose proof (key_string_length k) as Hks.
    rewrite <- (toUpperCase_length (key_string k)), Hkey in Hks.
    cbn [String.length] in Hks. lia. }
  destruct (handleConfigCmd_parsed k v c Hk Hv Hline H6 H79 Hlen) as (rest & E).
  rewrite E, Hkey, dispatch_output_out_of_range by exact H8.
  cbn [set_cmdBuffer events]. split; [reflexivity|].
  rewrite effects_app. cbn. now rewrite app_nil_r.
Qed.

End WithEnv.

(** The ten bytes of [SSID=MyNet] arrive at a new console. *)
Lemma SSID_MyNet_sends_WLSI_then_DOWN_witness :
  exists c',
    feed env0 (list_ascii_of_string "SSID=MyNet" ++ [CR]) console0 = Some c'
    /\ events c'
       = events console0
         ++ [ info ("Sent " +:+ quoted "%s" +:+ " to WiReach wireless LAN device")
                   [A_str "WLSI=MyNet"];
              sendMessage (MSG_COMMAND "WLSI=MyNet");
              sendMessage (MSG_COMMAND "DOWN") ]
    /\ effects (events c')
       = effects (events console0)
         ++ [ sendMessage (MSG_COMMAND "WLSI=MyNet"); sendMessage (MSG_COMMAND "DOWN") ]
    /\ ptrBuffer c' = 0.
Proof.
  apply (SSID_MyNet_sends_WLSI_then_DOWN env0 console0); reflexivity.
Defined.

(** A line of eight bytes that ends with its [=]. *)
Lemma malformed_line_changes_nothing_witness :
  let c := holding "CHANNEL=" in
  no_value (line c)
  /\ exists c',
       handleConsoleCmd env0 c = Some c'
       /\ events c' = events c ++ (if ptrBuffer c <? 6 then [] else usage_hint)
       /\ effects (events c') = effects (events c).
Proof.
  intros c.
  assert (Hnv : no_value (line c)) by (right; reflexivity).
  split; [exact Hnv|].
  apply (malformed_line_changes_nothing env0 c).
  - reflexivity.
  - vm_compute. discriminate.
  - vm_compute. lia.
  - reflexivity.
  - right. exact Hnv.
Defined.

(** A hundred bytes arrive at a new console. *)
Lemma line_buffer_keeps_the_first_79_bytes_witness :
  let bytes := replicate 100 "a"%char in
  Forall non_terminator bytes
  /\ (forall k : nat,
        exists ck, feed env0 (take k bytes) console0 = Some ck /\ ptrBuffer ck <= 79)
  /\ exists c',
       feed env0 bytes console0 = Some c'
       /\ ptrBuffer c' = Nat.min (length bytes) 79
       /\ line c' = take 79 bytes
       /\ events c' = events console0
       /\ feed env0 (bytes ++ [CR]) console0
          = option_map (set_ptrBuffer 0) (handleConsoleCmd env0 c').
Proof.
  intros bytes.
  assert (Hb : Forall non_terminator bytes).
  { apply Forall_replicate. split; discriminate. }
  split; [exact Hb|].
  apply (line_buffer_keeps_the_first_79_bytes env0 bytes console0 Hb); reflexivity.
Defined.

(** The key in lower case, with the address of the access point. *)
Lemma wifi_key_sends_its_command_then_DOWN_witness :
  let c := holding "ip=10.0.0.1" in
  exists l,
    events (handleConfigCmd env0 c) = events c ++ l
    /\ effects l = [ sendMessage (MSG_COMMAND "DIP=10.0.0.1");
                     sendMessage (MSG_COMMAND "DOWN") ].
Proof.
  intros c.
  apply (wifi_key_sends_its_command_then_DOWN env0 "IP" "DIP="
           (list_ascii_of_string "ip") (list_ascii_of_string "10.0.0.1") c).
  - right. right. left. reflexivity.
  - repeat constructor; discriminate.
  - reflexivity.
  - discriminate.
  - reflexivity.
  - vm_compute. lia.
  - vm_compute. lia.
  - reflexivity.
Defined.

(** Output 9, given in hexadecimal. *)
Lemma OUTPUT_of_8_or_more_is_an_unknown_command_witness :
  let c := holding "Output=0x9" in
  (8 <= strtol (list_ascii_of_string "0x9"))%Z
  /\ events (handleConfigCmd env0 c) = events c ++ [ console "Unknown command" [] ]
  /\ effects (events (handleConfigCmd env0 c)) = effects (events c).
Proof.
  intros c.
  assert (H8 : (8 <= strtol (list_ascii_of_string "0x9"))%Z)
    by (vm_compute; discriminate).
  split; [exact H8|].
  apply (OUTPUT_of_8_or_more_is_an_unknown_command env0
           (list_ascii_of_string "Output") (list_ascii_of_string "0x9") c).
  - repeat constructor; discriminate.
  - reflexivity.
  - reflexivity.
  - exact H8.
  - vm_compute. lia.
  - reflexivity.
Defined.

(** C7, as stated, fails: the five bytes [SSID=] are a line shorter than 6
    bytes, with no value after the [=], and processing it prints nothing, so
    no usage hint. *)
Lemma short_line_gets_no_usage_hint :
  let c := holding "SSID=" in
  ptrBuffer c = 5
  /\ no_value (line c)
  /\ option_map events (handleConsoleCmd env0 c) = Some []
  /\ option_map events (handleConsoleCmd env0 c) <> Some (events c ++ usage_hint).
Proof.
  vm_compute. split; [reflexivity|]. split; [right; reflexivity|].
  split; [reflexivity | discriminate].
Qed.

(** C9, as stated, fails: the line [IP=1] has a recognized key and a value,
    and processing it sends nothing, neither [DIP=1] nor [DOWN]. *)
Lemma short_IP_line_sends_nothing :
  let r := feed env0 (list_ascii_of_string "IP=1" ++ [CR]) console0 in
  option_map events r = Some []
  /\ option_map (fun c => effects (events c)) r
     <> Some [ sendMessage (MSG_COMMAND "DIP=1"); sendMessage (MSG_COMMAND "DOWN") ].
Proof.
  vm_compute. split; [reflexivity | discriminate].
Qed.

End ConsoleFacts.

(** * Further properties of the command engine *)

Module EngineMore.
Import ICHIPWIFI EngineFacts.

Section WithPrefix.

Variable prefix : string.









Lemma sendAll_snoc (cmds : list SendBuff.t) (e : SendBuff.t) (s : t) :
  sendAll prefix (cmds ++ [e]) s
  = sendCmd prefix (SendBuff.cmd e) (SendBuff.state e) (sendAll prefix cmds s).
Proof. unfold sendAll. now rewrite fold_left_app. Qed.

Lemma mod_64_apart (a b : nat) :
  a < b -> b - a < 64 -> a mod 64 <> b mod 64.
Proof.
  intros Hlt Hd E.
  pose proof (Nat.div_mod_eq a 64) as Ha.
  pose proof (Nat.div_mod_eq b 64) as Hb.
  rewrite E in Ha. lia.
Qed.

(** X4. However many commands are buffered while the engine is busy, the
    write pointer has advanced by their number modulo 64, and each of the 64
    most recent ones is in the ring, the command number [i] at the slot
    [(psWritePtr + i) mod 64]: only older ones have been overwritten. *)
Theorem ring_holds_the_latest_64_commands (cmds : list SendBuff.t) (s : t) :
  state s <> IDLE ->
  length (sendingBuffer s) = 64 ->
  psWritePtr s < 64 ->
  psWritePtr (sendAll prefix cmds s) = (psWritePtr s + length cmds) mod 64
  /\ forall (i : nat) (e : SendBuff.t),
       cmds !! i = Some e ->
       length cmds <= i + 64 ->
       sendingBuffer (sendAll prefix cmds s) !! ((psWritePtr s + i) mod 64) = Some e.
Proof.
  intros H L W. induction cmds as [|e cmds IH] using rev_ind.
  - cbn [length]. rewrite Nat.add_0_r, Nat.mod_small by exact W.
    split; [reflexivity|]. intros i e Hi. rewrite lookup_nil in Hi. discriminate.
  - destruct IH as [P G]. rewrite sendAll_snoc.
    destruct (sendAll_busy prefix cmds s H) as (_ & S & _ & _ & L').
    assert (B : state (sendAll prefix cmds s) <> IDLE) by now rewrite S.
    destruct (sendCmd_busy prefix (SendBuff.cmd e) (SendBuff.state e) _ B)
      as (_ & _ & _ & _ & _ & Bf & Pw & _).
    rewrite Bf, Pw, P. rewrite length_app. cbn [length]. split.
    + rewrite Nat.Div0.add_mod_idemp_l. f_equal. lia.
    + intros i x Hi Hn. destruct (Nat.eq_dec i (length cmds)) as [-> | Hne].
      * rewrite list_lookup_middle in Hi by reflexivity. injection Hi as <-.
        destruct e as [cmd st]. cbn [SendBuff.cmd SendBuff.state].
        apply list_lookup_insert_eq. rewrite L', L.
        apply Nat.mod_upper_bound. discriminate.
      * assert (Hlt : i < length cmds).
        { apply lookup_lt_Some in Hi. rewrite length_app in Hi. cbn [length] in Hi. lia. }
        rewrite lookup_app_l in Hi by exact Hlt.
        rewrite list_lookup_insert_ne.
        -- apply G; [exact Hi | lia].
        -- apply not_eq_sym. apply mod_64_apart; lia.
Qed.

End WithPrefix.




Lemma ring_holds_the_latest_64_commands_witness :
  let s := getNextParam "AT+i" (setup power_on) in
  state s <> IDLE
  /\ psWritePtr (sendAll "AT+i" (numbered 70) s)
     = (psWritePtr s + length (numbered 70)) mod 64
  /\ forall (i : nat) (e : SendBuff.t),
       numbered 70 !! i = Some e ->
       length (numbered 70) <= i + 64 ->
       sendingBuffer (sendAll "AT+i" (numbered 70) s) !! ((psWritePtr s + i) mod 64) = Some e.
Proof.
  intros s. split; [discriminate|].
  apply (ring_holds_the_latest_64_commands "AT+i" (numbered 70) s);
    [discriminate | reflexivity | cbn; lia].
Defined.

End EngineMore.

(** * Decimal texts *)

Module DecimalFacts.
Import ICHIPWIFI.

Lemma dec_value_app (a : Z) (l1 l2 : list ascii) :
  dec_value a (l1 ++ l2)
  = match dec_value a l1 with Some v => dec_value v l2 | None => None end.
Proof.
  revert a. induction l1 as [|ch l1 IH]; intros a; cbn [app dec_value]; [reflexivity|].
  destruct ((48 <=? Z.of_nat (nat_of_ascii ch))%Z && (Z.of_nat (nat_of_ascii ch) <=? 57)%Z);
    [apply IH | reflexivity].
Qed.

Lemma dec_value_digit (a d : Z) :
  (0 <= d <= 9)%Z -> dec_value a [digit_char d] = Some (a * 10 + d)%Z.
Proof.
  intros Hd. cbn [dec_value]. unfold digit_char.
  rewrite nat_ascii_embedding by lia.
  rewrite Z2Nat.id by lia.
  replace ((48 <=? 48 + d)%Z && (48 + d <=? 57)%Z) with true
    by (symmetry; apply andb_true_intro; split; apply Z.leb_le; lia).
  f_equal. lia.
Qed.

Lemma dec_value_zeros (k : nat) (l : list ascii) :
  dec_value 0 (replicate k "0"%char ++ l) = dec_value 0 l.
Proof. induction k as [|k IH]; cbn [replicate app]; [reflexivity | exact IH]. Qed.

Lemma dec_digits_grows (fuel : nat) (n : Z) (acc : list ascii) :
  length acc <= length (dec_digits fuel n acc).
Proof.
  revert n acc. induction fuel as [|fuel IH]; intros n acc; cbn [dec_digits]; [lia|].
  destruct (n / 10 =? 0)%Z; [cbn [length]; lia|].
  etransitivity; [|apply IH]. cbn [length]. lia.
Qed.

(** With fuel enough for the digits, the digits put before the accumulator
    read back as the number. *)
Lemma dec_digits_value (fuel : nat) :
  forall (n : Z) (acc : list ascii),
    (0 <= n < 10 ^ Z.of_nat fuel)%Z ->
    exists ds,
      dec_digits fuel n acc = ds ++ acc
      /\ forall a, dec_value a ds = Some (a * 10 ^ Z.of_nat (length ds) + n)%Z.
Proof.
  induction fuel as [|fuel IH]; intros n acc Hn.
  - exists []. split; [reflexivity|]. intros a. cbn [dec_value length].
    change (10 ^ Z.of_nat 0)%Z with 1%Z in *. f_equal. lia.
  - cbn [dec_digits].
    assert (Hd : (0 <= n mod 10 <= 9)%Z) by (pose proof (Z.mod_pos_bound n 10); lia).
    destruct (n / 10 =? 0)%Z eqn:E.
    + apply Z.eqb_eq in E. exists [digit_char (n mod 10)]. split; [reflexivity|].
      intros a. rewrite dec_value_digit by exact Hd. cbn [length].
      change (10 ^ Z.of_nat 1)%Z with 10%Z. f_equal.
      pose proof (Z.div_mod n 10). lia.
    + destruct (IH (n / 10)%Z (digit_char (n mod 10) :: acc)) as (ds & Eds & V).
      { rewrite Nat2Z.inj_succ, Z.pow_succ_r in Hn by lia.
        split; [apply Z.div_pos; lia | apply Z.div_lt_upper_bound; lia]. }
      exists (ds ++ [digit_char (n mod 10)]). split.
      * rewrite Eds, <- app_assoc. reflexivity.
      * intros a. rewrite dec_value_app, V, dec_value_digit by exact Hd.
        rewrite length_app. cbn [length]. rewrite Nat.add_1_r, Nat2Z.inj_succ, Z.pow_succ_r by lia.
        f_equal. pose proof (Z.div_mod n 10). lia.
Qed.

Lemma enough_fuel (n : Z) :
  (0 <= n)%Z -> (n < 10 ^ Z.of_nat (S (Z.to_nat (Z.log2 n))))%Z.
Proof.
  intros Hn. destruct (Z.eq_dec n 0%Z) as [-> | Hz]; [reflexivity|].
  pose proof (Z.log2_nonneg n) as Hl.
  rewrite Nat2Z.inj_succ, Z2Nat.id by exact Hl.
  apply Z.lt_le_trans with (2 ^ Z.succ (Z.log2 n))%Z.
  - apply Z.log2_spec. lia.
  - apply Z.pow_le_mono_l. lia.
Qed.

(** The digits of a number read back as the number. *)
Lemma dec_of_Z_value (n : Z) :
  (0 <= n)%Z -> dec_value 0 (dec_of_Z n) = Some n.
Proof.
  intros Hn. unfold dec_of_Z.
  destruct (dec_digits_value (S (Z.to_nat (Z.log2 n))) n [])
    as (ds & E & V); [split; [exact Hn | now apply enough_fuel]|].
  rewrite E, app_nil_r, V. f_equal.
Qed.

Lemma dec_of_Z_nonempty (n : Z) : 1 <= length (dec_of_Z n).
Proof.
  unfold dec_of_Z. cbn [dec_digits].
  destruct (n / 10 =? 0)%Z; [cbn [length]; lia|].
  etransitivity; [|apply dec_digits_grows]. cbn [length]. lia.
Qed.

Lemma dec_digits_length_le (fuel : nat) :
  forall (k : nat) (n : Z) (acc : list ascii),
    1 <= k -> (0 <= n < 10 ^ Z.of_nat k)%Z ->
    length (dec_digits fuel n acc) <= k + length acc.
Proof.
  induction fuel as [|fuel IH]; intros k n acc Hk Hn; cbn [dec_digits]; [lia|].
  destruct (n / 10 =? 0)%Z eqn:E; [cbn [length]; lia|].
  apply Z.eqb_neq in E.
  destruct k as [|[|k]]; [lia | |].
  - exfalso. apply E. apply Z.div_small. change (10 ^ Z.of_nat 1)%Z with 10%Z in Hn. lia.
  - etransitivity; [apply (IH (S k))|].
    + lia.
    + rewrite (Nat2Z.inj_succ (S k)), Z.pow_succ_r in Hn by lia.
      split; [apply Z.div_pos; lia | apply Z.div_lt_upper_bound; lia].
    + cbn [length]. lia.
Qed.

Lemma dec_digits_length_ge (k : nat) :
  forall (fuel : nat) (n : Z) (acc : list ascii),
    k < fuel -> (10 ^ Z.of_nat k <= n)%Z ->
    k + 1 + length acc <= length (dec_digits fuel n acc).
Proof.
  induction k as [|k IH]; intros fuel n acc Hf Hn.
  - destruct fuel as [|fuel]; [lia|]. cbn [dec_digits].
    destruct (n / 10 =? 0)%Z; [cbn [length]; lia|].
    etransitivity; [|apply dec_digits_grows]. cbn [length]. lia.
  - destruct fuel as [|fuel]; [lia|]. cbn [dec_digits].
    rewrite Nat2Z.inj_succ, Z.pow_succ_r in Hn by lia.
    assert (Hq : (10 ^ Z.of_nat k <= n / 10)%Z).
    { apply Z.div_le_lower_bound; lia. }
    assert (Hp : (0 < 10 ^ Z.of_nat k)%Z) by (apply Z.pow_pos_nonneg; lia).
    destruct (n / 10 =? 0)%Z eqn:E; [apply Z.eqb_eq in E; lia|].
    etransitivity; [|apply (IH fuel); [lia | exact Hq]]. cbn [length]. lia.
Qed.

(** A number has at most [k] digits when it is below [10 ^ k], and only
    then. *)
Lemma dec_of_Z_length (n : Z) (k : nat) :
  (0 <= n)%Z -> 1 <= k ->
  (length (dec_of_Z n) <= k <-> (n < 10 ^ Z.of_nat k)%Z).
Proof.
  intros Hn Hk. split.
  - intros Hl. destruct (Z.lt_ge_cases n (10 ^ Z.of_nat k)) as [H|H]; [exact H|].
    exfalso.
    assert (Hpos : (0 < 10 ^ Z.of_nat k)%Z) by (apply Z.pow_pos_nonneg; lia).
    pose proof (dec_digits_length_ge k (S (Z.to_nat (Z.log2 n))) n []) as G.
    unfold dec_of_Z in Hl. cbn [length] in G.
    assert (Hlog : (Z.of_nat k <= Z.log2 n)%Z).
    { apply Z.log2_le_pow2; [lia|].
      etransitivity; [|exact H]. apply Z.pow_le_mono_l. lia. }
    specialize (G ltac:(lia) H). lia.
  - intros H. unfold dec_of_Z.
    pose proof (dec_digits_length_le (S (Z.to_nat (Z.log2 n))) k n [] Hk (conj Hn H)) as G.
    cbn [length] in G. lia.
Qed.

End DecimalFacts.

(** * The texts the engine formats *)

Module FormatFacts.
Import ICHIPWIFI EngineFacts DecimalFacts.

Lemma string_of_list_ascii_app (a b : list ascii) :
  string_of_list_ascii (a ++ b) = string_of_list_ascii a +:+ string_of_list_ascii b.
Proof.
  induction a as [|x a IH]; cbn [app string_of_list_ascii]; [reflexivity|].
  now rewrite append_cons, IH.
Qed.

Lemma sprintf_into_fits (size : nat) (text : list ascii) :
  length text < size -> sprintf_into size text = Some text.
Proof.
  intros H. unfold sprintf_into.
  now replace (length text <? size) with true by (symmetry; apply Nat.ltb_lt; exact H).
Qed.

Lemma sprintf_into_overflows (size : nat) (text : list ascii) :
  size <= length text -> sprintf_into size text = None.
Proof.
  intros H. unfold sprintf_into.
  now replace (length text <? size) with false by (symmetry; apply Nat.ltb_ge; exact H).
Qed.

(** The socket field fits [buff] for the numbers of at most five characters. *)
Lemma fmt_03i_fits (socket : Z) :
  length (fmt_03i socket) < 6 <-> (-9999 <= socket <= 99999)%Z.
Proof.
  unfold fmt_03i. destruct (Z.ltb_spec socket 0) as [Hneg | Hpos].
  - pose proof (dec_of_Z_nonempty (- socket)) as H1.
    pose proof (dec_of_Z_length (- socket) 4 ltac:(lia) ltac:(lia)) as H4.
    change (10 ^ Z.of_nat 4)%Z with 10000%Z in H4.
    cbn [length]. rewrite length_app, length_replicate. lia.
  - pose proof (dec_of_Z_nonempty socket) as H1.
    pose proof (dec_of_Z_length socket 5 Hpos ltac:(lia)) as H5.
    change (10 ^ Z.of_nat 5)%Z with 100000%Z in H5.
    rewrite length_app, length_replicate. lia.
Qed.

(** The length field fits [buff] for the lengths of at most three digits. *)
Lemma length_field_fits (n : nat) :
  length (","%char :: fmt_i (Z.of_nat n) ++ [":"%char]) < 6 <-> n <= 999.
Proof.
  unfold fmt_i. replace (Z.of_nat n <? 0)%Z with false by (symmetry; apply Z.ltb_ge; lia).
  pose proof (dec_of_Z_length (Z.of_nat n) 3 ltac:(lia) ltac:(lia)) as H3.
  change (10 ^ Z.of_nat 3)%Z with 1000%Z in H3.
  cbn [length]. rewrite length_app. cbn [length]. lia.
Qed.

Section WithPrefix.

Variable prefix : string.

(** X5. [sendToSocket] writes its two number fields into a buffer of 6
    bytes: the fields and their terminating NUL fit when the socket number is
    between -9999 and 99999 and the payload has at most 999 bytes; for any
    other socket number or a longer payload [sprintf] writes past the end of
    the buffer, and the call has no defined result. *)
Theorem sendToSocket_overflows_its_buffer (socket : Z) (data : string) (s : t) :
  ((-9999 <= socket <= 99999)%Z /\ String.length data <= 999 ->
     exists s', sendToSocket prefix socket data s = Some s')
  /\ ((socket < -9999)%Z \/ (99999 < socket)%Z \/ 999 < String.length data ->
        sendToSocket prefix socket data s = None).
Proof.
  unfold sendToSocket. split.
  - intros [Hs Hd].
    rewrite sprintf_into_fits by (apply fmt_03i_fits; exact Hs).
    rewrite sprintf_into_fits by (apply length_field_fits; exact Hd).
    eexists. reflexivity.
  - intros Hbad.
    destruct (Nat.lt_ge_cases (length (fmt_03i socket)) 6) as [Hfit | Hover].
    + apply fmt_03i_fits in Hfit.
      rewrite sprintf_into_fits by (apply fmt_03i_fits; exact Hfit).
      rewrite sprintf_into_overflows; [reflexivity|].
      destruct (Nat.lt_ge_cases
                  (length (","%char :: fmt_i (Z.of_nat (String.length data)) ++ [":"%char])) 6)
        as [Hfit2 | Hover2]; [|exact Hover2].
      apply length_field_fits in Hfit2. lia.
    + now rewrite sprintf_into_overflows.
Qed.

(** X6. For a socket number from 0 to 999 and a payload of at most 999 bytes
    the command sent or buffered is [SSND%%:], three decimal digits that read
    as the socket number, a comma, decimal digits that read as the number of
    bytes of the payload, a colon, and the payload, and it goes through
    [sendCmd] with [SEND_SOCKET] as the state to take. *)
Theorem sendToSocket_command_format (socket : Z) (data : string) (s : t) :
  (0 <= socket <= 999)%Z ->
  String.length data <= 999 ->
  exists sock len : list ascii,
    sendToSocket prefix socket data s
    = Some (sendCmd prefix
              (string_of_list_ascii
                 (list_ascii_of_string "SSND%%:" ++ sock ++ ","%char :: len ++ [":"%char])
               +:+ data)
              SEND_SOCKET s)
    /\ length sock = 3
    /\ dec_value 0 sock = Some socket
    /\ dec_value 0 len = Some (Z.of_nat (String.length data)).
Proof.
  intros Hs Hd.
  exists (fmt_03i socket), (fmt_i (Z.of_nat (String.length data))).
  split; [|split; [|split]].
  - unfold sendToSocket.
    rewrite sprintf_into_fits by (apply fmt_03i_fits; lia).
    rewrite sprintf_into_fits by (apply length_field_fits; exact Hd).
    do 2 f_equal. rewrite !string_of_list_ascii_app.
    rewrite !append_assoc. reflexivity.
  - unfold fmt_03i. replace (socket <? 0)%Z with false by (symmetry; apply Z.ltb_ge; lia).
    pose proof (dec_of_Z_nonempty socket) as H1.
    pose proof (dec_of_Z_length socket 3 ltac:(lia) ltac:(lia)) as H3.
    change (10 ^ Z.of_nat 3)%Z with 1000%Z in H3.
    rewrite length_app, length_replicate. lia.
  - unfold fmt_03i. replace (socket <? 0)%Z with false by (symmetry; apply Z.ltb_ge; lia).
    rewrite dec_value_zeros. apply dec_of_Z_value. lia.
  - unfold fmt_i.
    replace (Z.of_nat (String.length data) <? 0)%Z with false
      by (symmetry; apply Z.ltb_ge; lia).
    apply dec_of_Z_value. lia.
Qed.

End WithPrefix.

Lemma sendToSocket_overflows_its_buffer_witness :
  (exists s', sendToSocket "AT+i" 2 "hello" (setup power_on) = Some s')
  /\ sendToSocket "AT+i" 100000 "hello" (setup power_on) = None.
Proof.
  split.
  - apply (sendToSocket_overflows_its_buffer "AT+i" 2 "hello" (setup power_on)).
    split; [lia | cbn; lia].
  - apply (sendToSocket_overflows_its_buffer "AT+i" 100000 "hello" (setup power_on)).
    right. left. lia.
Defined.

Lemma sendToSocket_command_format_witness :
  exists sock len : list ascii,
    sendToSocket "AT+i" 2 "hello" (setup power_on)
    = Some (sendCmd "AT+i"
              (string_of_list_ascii
                 (list_ascii_of_string "SSND%%:" ++ sock ++ ","%char :: len ++ [":"%char])
               +:+ "hello")
              SEND_SOCKET (setup power_on))
    /\ length sock = 3
    /\ dec_value 0 sock = Some 2%Z
    /\ dec_value 0 len = Some (Z.of_nat (String.length "hello")).
Proof.
  apply (sendToSocket_command_format "AT+i" 2 "hello" (setup power_on)); [lia | cbn; lia].
Defined.

Lemma fmt_02d_two_digits (v : Z) :
  (0 <= v < 100)%Z ->
  length (fmt_02d v) = 2 /\ dec_value 0 (fmt_02d v) = Some v.
Proof.
  intros Hv. unfold fmt_02d.
  pose proof (dec_of_Z_nonempty v) as H1.
  pose proof (dec_of_Z_length v 2 ltac:(lia) ltac:(lia)) as H2.
  change (10 ^ Z.of_nat 2)%Z with 100%Z in H2.
  split.
  - rewrite length_app, length_replicate. lia.
  - rewrite dec_value_zeros. apply dec_of_Z_value. lia.
Qed.

(** X7. [getTimeRunning] gives eight characters, [hh:mm:ss]: three fields of
    two decimal digits each, with hours below 24 and minutes and seconds
    below 60, which together are the whole seconds of the millisecond counter
    modulo one day. *)
Theorem getTimeRunning_is_the_time_of_day (s : t) :
  exists (hh mm ss : list ascii) (h m sec : Z),
    getTimeRunning s = hh ++ ":"%char :: mm ++ ":"%char :: ss
    /\ length hh = 2 /\ length mm = 2 /\ length ss = 2
    /\ dec_value 0 hh = Some h /\ dec_value 0 mm = Some m /\ dec_value 0 ss = Some sec
    /\ (0 <= h < 24)%Z /\ (0 <= m < 60)%Z /\ (0 <= sec < 60)%Z
    /\ (h * 3600 + m * 60 + sec = ((millis s mod 2 ^ 32) / 1000) mod 86400)%Z.
Proof.
  unfold getTimeRunning.
  set (ms := (millis s mod 2 ^ 32)%Z).
  set (sec := ((ms / 1000) mod 60)%Z).
  set (m := ((ms / (1000 * 60)) mod 60)%Z).
  set (h := ((ms / (1000 * 3600)) mod 24)%Z).
  assert (Hsec : (0 <= sec < 60)%Z) by (apply Z.mod_pos_bound; lia).
  assert (Hm : (0 <= m < 60)%Z) by (apply Z.mod_pos_bound; lia).
  assert (Hh : (0 <= h < 24)%Z) by (apply Z.mod_pos_bound; lia).
  destruct (fmt_02d_two_digits sec ltac:(lia)) as [Ls Vs].
  destruct (fmt_02d_two_digits m ltac:(lia)) as [Lm Vm].
  destruct (fmt_02d_two_digits h ltac:(lia)) as [Lh Vh].
  exists (fmt_02d h), (fmt_02d m), (fmt_02d sec), h, m, sec.
  repeat split; try assumption; try lia.
  subst h m sec.
  rewrite <- !Z.div_div by lia.
  set (t := (ms / 1000)%Z).
  replace (t / 3600)%Z with (t / 60 / 60)%Z by (rewrite Z.div_div by lia; reflexivity).
  pose proof (Z.div_mod t 60 ltac:(lia)).
  pose proof (Z.div_mod (t / 60) 60 ltac:(lia)).
  pose proof (Z.div_mod (t / 60 / 60) 24 ltac:(lia)).
  pose proof (Z.mod_pos_bound t 60 ltac:(lia)).
  pose proof (Z.mod_pos_bound (t / 60) 60 ltac:(lia)).
  pose proof (Z.mod_pos_bound (t / 60 / 60) 24 ltac:(lia)).
  apply Z.mod_unique with (q := (t / 60 / 60 / 24)%Z); lia.
Qed.

End FormatFacts.

(** * Further properties of the console *)

Module ConsoleMore.
Import SerialConsole ConsoleFacts.

Lemma extends_refl (c : t) : extends c c.
Proof. unfold extends. repeat split. exists []. now rewrite app_nil_r. Qed.

Lemma extends_trans (a b c : t) : extends a b -> extends b c -> extends a c.
Proof.
  intros (H1 & H2 & H3 & H4 & H5 & l1 & E1 & Q1) (G1 & G2 & G3 & G4 & G5 & l2 & E2 & Q2).
  unfold extends. rewrite G1, G2, G3, G4, G5, H1, H2, H3, H4, H5. repeat split.
  exists (l1 ++ l2). rewrite E2, E1, <- app_assoc. split; [reflexivity|].
  now rewrite List.filter_app, Q1, Q2.
Qed.

Lemma extends_after (c x : t) (es : list Event) :
  extends c x -> List.filter is_updateWifi es = [] -> extends c (emit es x).
Proof.
  intros H Q. apply (extends_trans c x); [exact H|].
  unfold extends, emit. cbn. repeat split. now exists es.
Qed.

Lemma extends_set_cmdBuffer (c x : t) (buf : list ascii) :
  extends c x -> length buf = length (cmdBuffer x) -> extends c (set_cmdBuffer buf x).
Proof.
  intros H L. apply (extends_trans c x); [exact H|].
  unfold extends, set_cmdBuffer. cbn. repeat split; [exact L|].
  exists []. now rewrite app_nil_r.
Qed.

Lemma extends_set_ptrBuffer (c x : t) (p : nat) :
  extends c x -> extends c (set_ptrBuffer p x).
Proof.
  intros H. apply (extends_trans c x); [exact H|].
  unfold extends, set_ptrBuffer. cbn. repeat split.
  exists []. now rewrite app_nil_r.
Qed.

Lemma extends_set_handlingEvent (c x : t) (b : bool) :
  extends c x -> extends c (set_handlingEvent b x).
Proof.
  intros H. apply (extends_trans c x); [exact H|].
  unfold extends, set_handlingEvent. cbn. repeat split.
  exists []. now rewrite app_nil_r.
Qed.

Lemma no_updateWifi_in_outputs (b : bool) (l : list nat) :
  List.filter is_updateWifi (map (fun tout => setOutput (Z.of_nat tout) b) l) = [].
Proof. induction l as [|x l IH]; [reflexivity | exact IH]. Qed.

Ltac extends_tac :=
  repeat lazymatch goal with
    | |- extends ?c ?c => apply extends_refl
    | |- extends _ (set_handlingEvent _ _) => apply extends_set_handlingEvent
    | |- extends _ (set_ptrBuffer _ _) => apply extends_set_ptrBuffer
    | |- extends _ (emit _ _) =>
        apply extends_after;
        [| first [ reflexivity
                 | rewrite List.filter_app, no_updateWifi_in_outputs; reflexivity ] ]
    end.

Section WithEnv.

Variable env : Env.

Lemma extends_printMenu (c x : t) : extends c x -> extends c (printMenu env x).
Proof.
  intros H. unfold printMenu. cbv zeta.
  apply extends_after; [apply extends_after; [apply extends_after; [exact H|] | reflexivity] | reflexivity].
  destruct (heartbeat x); reflexivity.
Qed.

Lemma extends_dumpBytes (base : Z) (c x : t) :
  extends c x -> extends c (dumpBytes env base x).
Proof.
  unfold dumpBytes. generalize (seq 0 256). intros l. revert x.
  induction l as [|i l IH]; intros x H; cbn [fold_left]; [exact H|].
  apply IH. apply extends_after; [exact H | reflexivity].
Qed.

Lemma extends_handleShortCmd (c c' : t) :
  handleShortCmd env c = Some c' -> extends c c'.
Proof.
  unfold handleShortCmd. cbv zeta.
  generalize (char_at (cmdBuffer c) 0). intros ch.
  repeat (match goal with
          | |- context [Ascii.eqb ch ?x] => destruct (Ascii.eqb ch x)
          end; cbn [orb]; cbv beta iota);
    intros E; try discriminate E; injection E as <-;
    lazymatch goal with
    | |- extends _ (printMenu _ _) => apply extends_printMenu; apply extends_refl
    | |- extends _ (dumpBytes _ _ _) => apply extends_dumpBytes; extends_tac
    | |- _ => extends_tac
    end.
Qed.

Lemma extends_dispatchConfigCmd (key : string) (value : list ascii) (newValue : Z) (c x : t) :
  extends c x -> extends c (dispatchConfigCmd env key value newValue x).
Proof.
  intros H. unfold dispatchConfigCmd, wifiParam.
  repeat (match goal with
          | |- context [String.eqb key ?k] => destruct (String.eqb key k)
          | |- context [if ?b then _ else _] => destruct b
          end; cbn [andb]; cbv beta iota zeta);
    repeat lazymatch goal with
      | |- extends _ (emit _ _) => apply extends_after; [| reflexivity]
      end;
    exact H.
Qed.

Lemma extends_handleConfigCmd (c x : t) :
  extends c x -> extends c (handleConfigCmd env x).
Proof.
  intros H. unfold handleConfigCmd.
  destruct (ptrBuffer x <? 6); [exact H|]. cbv zeta.
  destruct (keyLoop _ _ _ _) as [i0 cmdString].
  assert (H1 : extends c (set_cmdBuffer (<[ptrBuffer x := NUL]> (cmdBuffer x)) x)).
  { apply extends_set_cmdBuffer; [exact H | apply length_insert]. }
  destruct (_ <=? _).
  - apply extends_after; [exact H1 | reflexivity].
  - apply extends_dispatchConfigCmd. exact H1.
Qed.

Lemma extends_handleConsoleCmd (c c' : t) :
  handleConsoleCmd env c = Some c' -> extends c c' /\ handlingEvent c' = false.
Proof.
  unfold handleConsoleCmd. cbv zeta.
  destruct (state (set_handlingEvent true c) =? STATE_ROOT_MENU env)%Z.
  - destruct (ptrBuffer (set_handlingEvent true c) =? 1).
    + destruct (handleShortCmd env (set_handlingEvent true c)) as [x|] eqn:E;
        [|discriminate]. cbn [option_map]. intros [= <-]. split; [|reflexivity].
      apply extends_set_handlingEvent.
      apply (extends_trans c (set_handlingEvent true c)); [extends_tac|].
      now apply extends_handleShortCmd.
    + cbn [option_map]. intros [= <-]. split; [|reflexivity].
      apply extends_set_handlingEvent. apply extends_handleConfigCmd. extends_tac.
  - cbn [option_map]. intros [= <-]. split; [|reflexivity]. extends_tac.
Qed.

Lemma extends_serialEvent (incoming : Z) (c c' : t) :
  serialEvent env incoming c = Some c' -> extends c c'.
Proof.
  unfold serialEvent.
  destruct (incoming =? -1)%Z; [intros [= <-]; apply extends_refl|].
  destruct ((incoming =? 10)%Z || (incoming =? 13)%Z).
  - destruct (handleConsoleCmd env c) as [x|] eqn:E; [|discriminate].
    cbn [option_map]. intros [= <-].
    apply extends_set_ptrBuffer. now apply extends_handleConsoleCmd.
  - cbv zeta. intros [= <-].
    destruct (79 <? _); repeat apply extends_set_ptrBuffer;
      (apply extends_set_cmdBuffer; [apply extends_refl | apply length_insert]).
Qed.

Lemma handleShortCmd_None (c : t) :
  handleShortCmd env c = None <-> char_at (cmdBuffer c) 0 = "p"%char.
Proof.
  unfold handleShortCmd. cbv zeta.
  generalize (char_at (cmdBuffer c) 0). intros ch.
  repeat (match goal with
          | |- context [Ascii.eqb ch ?x] => destruct (Ascii.eqb_spec ch x)
          end; cbn [orb]; cbv beta iota);
    split; intros H; try discriminate H; try reflexivity; try assumption;
    exfalso; subst ch;
    match goal with
    | E : _ = _ |- _ => discriminate E
    | N : _ <> _ |- _ => now apply N
    end.
Qed.

Lemma handleConsoleCmd_None (c : t) :
  handleConsoleCmd env c = None
  <-> state c = STATE_ROOT_MENU env /\ ptrBuffer c = 1
      /\ char_at (cmdBuffer c) 0 = "p"%char.
Proof.
  unfold handleConsoleCmd. cbv zeta. cbn [set_handlingEvent state ptrBuffer].
  destruct (Z.eqb_spec (state c) (STATE_ROOT_MENU env)) as [Hs | Hs].
  - destruct (Nat.eqb_spec (ptrBuffer c) 1) as [Hp | Hp].
    + destruct (handleShortCmd env _) as [x|] eqn:E; cbn [option_map].
      * split; [discriminate|]. intros (_ & _ & Hc).
        assert (N : handleShortCmd env (set_handlingEvent true c) = None)
          by (apply handleShortCmd_None; exact Hc).
        congruence.
      * split; [|reflexivity]. intros _. apply handleShortCmd_None in E.
        repeat split; [exact Hs | exact Hp | exact E].
    + cbn [option_map]. split; [discriminate | intros (_ & H & _); contradiction].
  - cbn [option_map]. split; [discriminate | intros (H & _); contradiction].
Qed.

(** X8. The console stops for good on one input only: a call of
    [serialEvent] does not return exactly when the byte read is a line feed
    or a carriage return, the console is in its root menu and the line is the
    single character [p], which starts the relay between the serial ports.
    Every other byte, in every other state, is handled and the call
    returns. *)
Theorem serialEvent_hangs_only_on_p (incoming : Z) (c : t) :
  serialEvent env incoming c = None
  <-> (incoming = 10 \/ incoming = 13)%Z
      /\ state c = STATE_ROOT_MENU env /\ ptrBuffer c = 1
      /\ char_at (cmdBuffer c) 0 = "p"%char.
Proof.
  unfold serialEvent.
  destruct (Z.eqb_spec incoming (-1)) as [H1 | H1].
  { split; [discriminate | intros ([H | H] & _); lia]. }
  destruct (Z.eqb_spec incoming 10) as [H10 | H10];
    destruct (Z.eqb_spec incoming 13) as [H13 | H13]; cbn [orb];
    try (destruct (handleConsoleCmd env c) as [x|] eqn:E; cbn [option_map];
         [ split; [discriminate|]; intros (_ & H); apply handleConsoleCmd_None in H; congruence
         | apply handleConsoleCmd_None in E; split; [intros _; split; [lia | exact E] | reflexivity] ]).
  cbv zeta. split; [discriminate | intros ([H | H] & _); contradiction].
Qed.

Lemma serialEvent_offset (incoming : Z) (c c' : t) :
  serialEvent env incoming c = Some c' -> ptrBuffer c <= 79 -> ptrBuffer c' <= 79.
Proof.
  unfold serialEvent.
  destruct (incoming =? -1)%Z; [intros [= <-]; auto|].
  destruct ((incoming =? 10)%Z || (incoming =? 13)%Z).
  - destruct (handleConsoleCmd env c) as [x|]; [|discriminate].
    cbn [option_map]. intros [= <-] _. cbn [set_ptrBuffer ptrBuffer]. lia.
  - cbv zeta. intros [= <-] _.
    cbn [set_ptrBuffer set_cmdBuffer ptrBuffer].
    destruct (Nat.ltb_spec 79 (ptrBuffer c + 1)) as [H | H];
      cbn [set_ptrBuffer ptrBuffer]; lia.
Qed.

(** X9. Whatever values arrive, bytes, terminators or the mark of no data, in
    whatever order, as long as the calls return: the line buffer keeps its 80
    bytes and the write offset stays at most 79, so that every byte stored,
    and the NUL that ends a line, goes inside the buffer. *)
Theorem line_buffer_is_never_overrun (incomings : list Z) (c c' : t) :
  ptrBuffer c <= 79 ->
  length (cmdBuffer c) = 80 ->
  serialEvents env incomings c = Some c' ->
  ptrBuffer c' <= 79 /\ length (cmdBuffer c') = 80.
Proof.
  revert c. induction incomings as [|x incomings IH]; intros c P L E; cbn [serialEvents] in E.
  - injection E as <-. auto.
  - destruct (serialEvent env x c) as [c1|] eqn:E1; [|discriminate].
    apply (IH c1); [| | exact E].
    + now apply (serialEvent_offset x c c1).
    + apply extends_serialEvent in E1. destruct E1 as (_ & _ & _ & _ & L1 & _). lia.
Qed.

(** X10. A terminator that follows a terminator changes nothing: once a line
    has been processed, the line feed of a carriage return and line feed
    pair, or any further empty line, leaves the console as it is and causes
    no event. *)
Theorem second_terminator_is_ignored (t1 t2 : Z) (c c1 : t) :
  (t1 = 10 \/ t1 = 13)%Z ->
  (t2 = 10 \/ t2 = 13)%Z ->
  serialEvent env t1 c = Some c1 ->
  serialEvent env t2 c1 = Some c1.
Proof.
  intros H1 H2 E.
  assert (T : forall t, (t = 10 \/ t = 13)%Z ->
                        (t =? -1)%Z = false /\ ((t =? 10)%Z || (t =? 13)%Z) = true).
  { intros t [-> | ->]; split; reflexivity. }
  unfold serialEvent in E. destruct (T t1 H1) as [A B]. rewrite A, B in E.
  destruct (handleConsoleCmd env c) as [x|] eqn:Ex; [|discriminate].
  cbn [option_map] in E. injection E as <-.
  apply extends_handleConsoleCmd in Ex. destruct Ex as [_ Hx].
  unfold serialEvent. destruct (T t2 H2) as [A' B']. rewrite A', B'.
  unfold handleConsoleCmd. cbv zeta.
  cbn [set_handlingEvent set_ptrBuffer state ptrBuffer].
  destruct (state x =? STATE_ROOT_MENU env)%Z.
  - cbn [Nat.eqb]. rewrite handleConfigCmd_short by (cbn [set_handlingEvent set_ptrBuffer ptrBuffer]; lia).
    cbn [option_map]. f_equal. destruct x. cbn in *. now subst.
  - cbn [option_map]. f_equal. destruct x. cbn in *. now subst.
Qed.

Lemma updateWifi_calls_extends (c c' : t) :
  extends c c' -> updateWifi_calls (events c') = updateWifi_calls (events c).
Proof.
  intros (_ & _ & _ & _ & _ & l & E & Q). unfold updateWifi_calls.
  now rewrite E, List.filter_app, Q, app_nil_r.
Qed.

(** One call of [loop]: the counter and the flag that stops it. *)
Lemma loop_step (rx : option Z) (c c' : t) :
  loop env rx c = Some c' ->
  (cancel c = true ->
     cancel c' = true /\ updateWifi_calls (events c') = updateWifi_calls (events c))
  /\ (cancel c = false -> loopcount c <> 350000%Z ->
       cancel c' = false /\ loopcount c' = (loopcount c + 1)%Z
       /\ updateWifi_calls (events c') = updateWifi_calls (events c))
  /\ (cancel c = false -> loopcount c = 350000%Z ->
       cancel c' = true
       /\ updateWifi_calls (events c') = S (updateWifi_calls (events c))).
Proof.
  unfold loop.
  set (c0 := if negb (cancel c) then _ else c).
  intros E.
  assert (X : extends c0 c').
  { destruct (negb (handlingEvent c0)); [|injection E as <-; apply extends_refl].
    destruct rx as [incoming|]; [|injection E as <-; apply extends_refl].
    now apply (extends_serialEvent incoming). }
  pose proof (updateWifi_calls_extends c0 c' X) as U.
  destruct X as (_ & _ & L & C & _).
  rewrite U, L, C. subst c0. clear.
  destruct (cancel c) eqn:Hc; cbn [negb].
  - split; [auto|]. split; discriminate.
  - destruct (Z.eqb_spec (loopcount c) 350000) as [H | H];
      cbn [cancel loopcount events].
    + split; [discriminate|]. split; [intros _ N; contradiction|]. intros _ _.
      split; [reflexivity|].
      unfold updateWifi_calls. rewrite List.filter_app, length_app. cbn. lia.
    + split; [discriminate|]. split; [|intros _ N; contradiction]. auto.
Qed.

Lemma polls_count (rxs : list (option Z)) :
  forall (k : nat) (c c' : t),
    polls env rxs c = Some c' ->
    (cancel c = false /\ loopcount c = Z.of_nat k /\ (Z.of_nat k <= 350000)%Z
     /\ updateWifi_calls (events c) = 0)
    \/ (cancel c = true /\ (350000 < Z.of_nat k)%Z /\ updateWifi_calls (events c) = 1) ->
    updateWifi_calls (events c')
    = if (350000 <? Z.of_nat (k + length rxs))%Z then 1 else 0.
Proof.
  induction rxs as [|rx rxs IH]; intros k c c' E Inv; cbn [polls length] in *.
  - injection E as <-. rewrite Nat.add_0_r.
    destruct Inv as [(_ & _ & Hk & U) | (_ & Hk & U)]; rewrite U.
    + now replace (350000 <? Z.of_nat k)%Z with false by (symmetry; apply Z.ltb_ge; lia).
    + now replace (350000 <? Z.of_nat k)%Z with true by (symmetry; apply Z.ltb_lt; lia).
  - destruct (loop env rx c) as [c1|] eqn:E1; [|discriminate].
    destruct (loop_step rx c c1 E1) as (S1 & S2 & S3).
    replace (k + S (length rxs)) with (S k + length rxs) by lia.
    apply (IH (S k) c1 c' E).
    destruct Inv as [(Hc & Hl & Hk & U) | (Hc & Hk & U)].
    + destruct (Z.eq_dec (loopcount c) 350000%Z) as [H | H].
      * destruct (S3 Hc H) as (C' & U'). right. repeat split; [exact C' | lia | lia].
      * destruct (S2 Hc H) as (C' & L' & U'). left. repeat split; [exact C' | lia | lia | lia].
    + destruct (S1 Hc) as (C' & U'). right. repeat split; [exact C' | lia | lia].
Qed.

(** X11. A console polled through [loop] from its construction calls
    [DeviceManager::updateWifi] exactly once, on the poll number 350001,
    whatever arrives on the serial port in the meantime: after any number of
    polls that return, the number of such calls is 0 up to 350000 polls and 1
    from then on. *)
Theorem updateWifi_is_called_once_after_350000_polls
    (has_heartbeat : bool) (buf : list ascii) (rxs : list (option Z)) (c' : t) :
  polls env rxs (init env has_heartbeat buf) = Some c' ->
  updateWifi_calls (events c')
  = if (350000 <? Z.of_nat (length rxs))%Z then 1 else 0.
Proof.
  intros E. apply (polls_count rxs 0 _ c' E).
  left. repeat split. lia.
Qed.

(** A line with a key, [=] and a value reaches the dispatch with the events
    it had. *)
Lemma config_line_dispatched (k v : list ascii) (c : t) :
  Forall (fun ch => ch <> "="%char) k ->
  v <> [] ->
  line c = k ++ "="%char :: v ->
  6 <= ptrBuffer c ->
  ptrBuffer c <= 79 ->
  length (cmdBuffer c) = 80 ->
  exists rest c1,
    handleConfigCmd env c
    = dispatchConfigCmd env (toUpperCase (key_string k)) (v ++ NUL :: rest) (strtol v) c1
    /\ events c1 = events c.
Proof.
  intros Hk Hv Hline H6 H79 Hlen.
  destruct (handleConfigCmd_parsed env k v c Hk Hv Hline H6 H79 Hlen) as (rest & E).
  exists rest. eexists. split; [exact E | reflexivity].
Qed.

(** A line whose key is as long as [KEY] has at least that many bytes and
    two more. *)
Lemma config_line_length (KEY : string) (k v : list ascii) (c : t) :
  toUpperCase (key_string k) = KEY ->
  v <> [] ->
  line c = k ++ "="%char :: v ->
  ptrBuffer c <= 79 ->
  length (cmdBuffer c) = 80 ->
  String.length KEY + 2 <= ptrBuffer c.
Proof.
  intros Hkey Hv Hline H79 Hlen.
  destruct (buffer_terminated c H79 Hlen) as [_ Hl].
  rewrite Hline, length_app in Hl. cbn [length] in Hl.
  pose proof (key_string_length k) as Hks.
  rewrite <- (toUpperCase_length (key_string k)), Hkey in Hks.
  destruct v; [congruence|]. cbn [length] in Hl. lia.
Qed.

Lemma dispatch_LOGLEVEL (value : list ascii) (newValue : Z) (c : t) :
  exists l,
    events (dispatchConfigCmd env "LOGLEVEL" value newValue c) = events c ++ l
    /\ effects l
       = match level_of newValue with
         | Some level => [ Logger_setLoglevel level ]
         | None => []
         end
         ++ [ sysPrefs_write_LOG_LEVEL (newValue mod 256)%Z;
              sysPrefs_saveChecksum;
              sendMessage MSG_CONFIG_CHANGE ].
Proof.
  unfold dispatchConfigCmd, level_of.
  change (String.eqb "LOGLEVEL" "LOGLEVEL") with true. cbv beta iota zeta.
  repeat match goal with
         | |- context [(newValue =? ?n)%Z] => destruct (newValue =? n)%Z
         end;
    cbn [emit events]; rewrite <- !app_assoc; eexists; split; reflexivity.
Qed.

(** X12. A line whose key is [LOGLEVEL], in either case, with a value: the
    number [strtol] makes of the value selects the level for 0 to 4 (debug,
    info, warning, error, off) and no level otherwise; in both cases the
    number, reduced modulo 256, is written to the preference store, the
    checksum is saved and the notification of a changed configuration is
    sent.  A number outside 0 to 4 is thus stored although it names no
    level. *)
Theorem LOGLEVEL_is_stored_even_when_out_of_range (k v : list ascii) (c : t) :
  Forall (fun ch => ch <> "="%char) k ->
  toUpperCase (key_string k) = "LOGLEVEL"%string ->
  v <> [] ->
  line c = k ++ "="%char :: v ->
  ptrBuffer c <= 79 ->
  length (cmdBuffer c) = 80 ->
  exists l,
    events (handleConfigCmd env c) = events c ++ l
    /\ effects l
       = match level_of (strtol v) with
         | Some level => [ Logger_setLoglevel level ]
         | None => []
         end
         ++ [ sysPrefs_write_LOG_LEVEL (strtol v mod 256)%Z;
              sysPrefs_saveChecksum;
              sendMessage MSG_CONFIG_CHANGE ].
Proof.
  intros Hk Hkey Hv Hline H79 Hlen.
  pose proof (config_line_length _ k v c Hkey Hv Hline H79 Hlen) as H6.
  cbn [String.length] in H6.
  destruct (config_line_dispatched k v c Hk Hv Hline ltac:(lia) H79 Hlen)
    as (rest & c1 & E & Ev).
  rewrite E, Hkey, <- Ev. apply dispatch_LOGLEVEL.
Qed.

Lemma dispatch_OUTPUT (value : list ascii) (newValue : Z) (c : t) :
  (newValue < 8)%Z ->
  exists l,
    events (dispatchConfigCmd env "OUTPUT" value newValue c) = events c ++ l
    /\ effects l
       = [ setOutput newValue (getOutput env (events c) newValue =? 0)%Z;
           sendMessage MSG_CONFIG_CHANGE ].
Proof.
  intros H. unfold dispatchConfigCmd.
  replace (newValue <? 8)%Z with true by (symmetry; apply Z.ltb_lt; exact H).
  change (String.eqb "OUTPUT" ?x) with false at 1 2 3 4 5 6 7.
  change (String.eqb "OUTPUT" "OUTPUT" && true) with true.
  cbv beta iota zeta. cbn [emit events]. rewrite <- !app_assoc.
  eexists. split; reflexivity.
Qed.

(** X13. A line whose key is [OUTPUT], in either case, with a value that
    [strtol] turns into a number below 8: the output of that number is set to
    the opposite of what [getOutput] reports for it, and the notification of
    a changed configuration is sent.  There is no lower bound: a negative
    number reaches [getOutput] and [setOutput] as it is. *)
Theorem OUTPUT_below_8_toggles_that_output (k v : list ascii) (c : t) :
  Forall (fun ch => ch <> "="%char) k ->
  toUpperCase (key_string k) = "OUTPUT"%string ->
  v <> [] ->
  line c = k ++ "="%char :: v ->
  (strtol v < 8)%Z ->
  ptrBuffer c <= 79 ->
  length (cmdBuffer c) = 80 ->
  exists l,
    events (handleConfigCmd env c) = events c ++ l
    /\ effects l
       = [ setOutput (strtol v) (getOutput env (events c) (strtol v) =? 0)%Z;
           sendMessage MSG_CONFIG_CHANGE ].
Proof.
  intros Hk Hkey Hv Hline H8 H79 Hlen.
  pose proof (config_line_length _ k v c Hkey Hv Hline H79 Hlen) as H6.
  cbn [String.length] in H6.
  destruct (config_line_dispatched k v c Hk Hv Hline ltac:(lia) H79 Hlen)
    as (rest & c1 & E & Ev).
  rewrite E, Hkey, <- Ev. now apply dispatch_OUTPUT.
Qed.

Lemma dispatch_NUKE (value : list ascii) (newValue : Z) (c : t) :
  exists l,
    events (dispatchConfigCmd env "NUKE" value newValue c) = events c ++ l
    /\ effects l
       = (if (newValue =? 1)%Z
          then flat_map
                 (fun j => [ memCache_Write
                               (EE_DEVICES_BASE env + EE_DEVICE_SIZE env * Z.of_nat j)%Z 0%Z;
                             memCache_FlushAllPages ])
                 (seq 0 64)
          else [])
         ++ [ sendMessage MSG_CONFIG_CHANGE ].
Proof.
  unfold dispatchConfigCmd.
  change (String.eqb "NUKE" ?x) with false at 1 2 3 4 5 6 7.
  change (String.eqb "NUKE" "OUTPUT" && (newValue <? 8)%Z) with false.
  change (String.eqb "NUKE" "NUKE") with true.
  cbv beta iota zeta.
  destruct (newValue =? 1)%Z; cbn [emit events]; rewrite <- ?app_assoc;
    eexists; (split; [reflexivity|]).
  - unfold effects. rewrite !List.filter_app. reflexivity.
  - reflexivity.
Qed.

(** X14. A line whose key is [NUKE], in either case, with a value: when
    [strtol] turns the value into 1, a zero is written at each of the 64
    addresses [EE_DEVICES_BASE + EE_DEVICE_SIZE * j], every write followed by
    a flush of the memory cache; for any other number nothing is written.
    Either way the notification of a changed configuration is sent.  What
    arms the command is the number, not the text: [01], [0x1] or [1abc] arm
    it as [1] does. *)
Theorem NUKE_writes_only_when_the_value_is_1 (k v : list ascii) (c : t) :
  Forall (fun ch => ch <> "="%char) k ->
  toUpperCase (key_string k) = "NUKE"%string ->
  v <> [] ->
  line c = k ++ "="%char :: v ->
  ptrBuffer c <= 79 ->
  length (cmdBuffer c) = 80 ->
  exists l,
    events (handleConfigCmd env c) = events c ++ l
    /\ effects l
       = (if (strtol v =? 1)%Z
          then flat_map
                 (fun j => [ memCache_Write
                               (EE_DEVICES_BASE env + EE_DEVICE_SIZE env * Z.of_nat j)%Z 0%Z;
                             memCache_FlushAllPages ])
                 (seq 0 64)
          else [])
         ++ [ sendMessage MSG_CONFIG_CHANGE ].
Proof.
  intros Hk Hkey Hv Hline H79 Hlen.
  pose proof (config_line_length _ k v c Hkey Hv Hline H79 Hlen) as H6.
  cbn [String.length] in H6.
  destruct (config_line_dispatched k v c Hk Hv Hline ltac:(lia) H79 Hlen)
    as (rest & c1 & E & Ev).
  rewrite E, Hkey, <- Ev. apply dispatch_NUKE.
Qed.

Lemma dispatch_unknown (KEY : string) (value : list ascii) (newValue : Z) (c : t) :
  ~ In KEY config_keys ->
  dispatchConfigCmd env KEY value newValue c = emit [ console "Unknown command" [] ] c.
Proof.
  intros Hn. unfold dispatchConfigCmd.
  repeat match goal with
         | |- context [String.eqb KEY ?x] =>
             destruct (String.eqb_spec KEY x) as [-> | _];
             [exfalso; apply Hn; unfold config_keys; cbn [In]; tauto|]
         end.
  reflexivity.
Qed.

(** X15. A line of 6 to 79 bytes with a value whose key, put in upper case,
    is none of [LOGLEVEL], [WIREACH], [SSID], [IP], [CHANNEL], [SECURITY],
    [PWD], [OUTPUT] and [NUKE]: [Unknown command] is printed and nothing
    else happens; in particular no notification of a changed configuration is
    sent. *)
Theorem unknown_key_only_prints (k v : list ascii) (c : t) :
  Forall (fun ch => ch <> "="%char) k ->
  ~ In (toUpperCase (key_string k)) config_keys ->
  v <> [] ->
  line c = k ++ "="%char :: v ->
  6 <= ptrBuffer c ->
  ptrBuffer c <= 79 ->
  length (cmdBuffer c) = 80 ->
  events (handleConfigCmd env c) = events c ++ [ console "Unknown command" [] ]
  /\ effects (events (handleConfigCmd env c)) = effects (events c).
Proof.
  intros Hk Hkey Hv Hline H6 H79 Hlen.
  destruct (config_line_dispatched k v c Hk Hv Hline H6 H79 Hlen)
    as (rest & c1 & E & Ev).
  rewrite E, dispatch_unknown by exact Hkey.
  cbn [emit events]. rewrite Ev. split; [reflexivity|].
  rewrite effects_app. cbn. now rewrite app_nil_r.
Qed.

Lemma handleShortCmd_other (c : t) :
  ~ In (char_at (cmdBuffer c) 0) short_commands ->
  handleShortCmd env c = Some c.
Proof.
  unfold handleShortCmd. cbv zeta.
  generalize (char_at (cmdBuffer c) 0). intros ch Hn.
  repeat (match goal with
          | |- context [Ascii.eqb ch ?x] =>
              destruct (Ascii.eqb_spec ch x) as [-> | _]
          end; cbn [orb]; cbv beta iota);
    try reflexivity;
    exfalso; apply Hn; unfold short_commands; cbn [In list_ascii_of_string]; tauto.
Qed.

(** X16. A line of one character that is none of [h ? H U I E K J p S s W w
    X], ended by a line feed or a carriage return, does nothing: the console
    is left as it was, with an empty line, and no event is caused.  Among these characters are [L], [z], [Z], [b] and [B], which
    the menu lists as commands. *)
Theorem other_short_commands_do_nothing (incoming : Z) (c : t) :
  (incoming = 10 \/ incoming = 13)%Z ->
  ptrBuffer c = 1 ->
  handlingEvent c = false ->
  ~ In (char_at (cmdBuffer c) 0) short_commands ->
  serialEvent env incoming c = Some (set_ptrBuffer 0 c).
Proof.
  intros Ht Hp Hh Hn. unfold serialEvent.
  replace (incoming =? -1)%Z with false by (destruct Ht as [-> | ->]; reflexivity).
  replace ((incoming =? 10)%Z || (incoming =? 13)%Z) with true
    by (destruct Ht as [-> | ->]; reflexivity).
  unfold handleConsoleCmd. cbv zeta. cbn [set_handlingEvent state ptrBuffer].
  rewrite Hp. cbn [Nat.eqb].
  rewrite handleShortCmd_other by exact Hn.
  destruct (state c =? STATE_ROOT_MENU env)%Z; cbn [option_map]; f_equal;
    destruct c; cbn in *; now subst.
Qed.

End WithEnv.

(** The short command [S], ended by a carriage return and a line feed. *)
Lemma line_buffer_is_never_overrun_witness :
  let incomings := [83; 13; 10]%Z in
  exists c',
    serialEvents env0 incomings console0 = Some c'
    /\ ptrBuffer c' <= 79 /\ length (cmdBuffer c') = 80.
Proof.
  intros incomings. eexists. split; [reflexivity|].
  apply (line_buffer_is_never_overrun env0 incomings console0);
    [cbn; lia | reflexivity | reflexivity].
Defined.

Lemma second_terminator_is_ignored_witness :
  let c := holding "SSID=MyNet" in
  exists c1,
    serialEvent env0 13 c = Some c1 /\ serialEvent env0 10 c1 = Some c1.
Proof.
  intros c. eexists. split; [reflexivity|].
  apply (second_terminator_is_ignored env0 13 10 c);
    [right; reflexivity | left; reflexivity | reflexivity].
Defined.

Lemma updateWifi_is_called_once_after_350000_polls_witness :
  let rxs := [Some 83; None]%Z in
  exists c',
    polls env0 rxs (init env0 false (replicate CMD_BUFFER_SIZE NUL)) = Some c'
    /\ updateWifi_calls (events c')
       = if (350000 <? Z.of_nat (length rxs))%Z then 1 else 0.
Proof.
  intros rxs. eexists. split; [reflexivity|].
  apply (updateWifi_is_called_once_after_350000_polls env0 false
           (replicate CMD_BUFFER_SIZE NUL) rxs).
  reflexivity.
Defined.

(** A level that does not exist, with the key in lower case. *)
Lemma LOGLEVEL_is_stored_even_when_out_of_range_witness :
  let c := holding "loglevel=7" in
  exists l,
    events (handleConfigCmd env0 c) = events c ++ l
    /\ effects l
       = match level_of (strtol (list_ascii_of_string "7")) with
         | Some level => [ Logger_setLoglevel level ]
         | None => []
         end
         ++ [ sysPrefs_write_LOG_LEVEL (strtol (list_ascii_of_string "7") mod 256)%Z;
              sysPrefs_saveChecksum;
              sendMessage MSG_CONFIG_CHANGE ].
Proof.
  intros c.
  apply (LOGLEVEL_is_stored_even_when_out_of_range env0
           (list_ascii_of_string "loglevel") (list_ascii_of_string "7") c).
  - repeat constructor; discriminate.
  - reflexivity.
  - discriminate.
  - reflexivity.
  - vm_compute. lia.
  - reflexivity.
Defined.

(** A negative output number. *)
Lemma OUTPUT_below_8_toggles_that_output_witness :
  let c := holding "OUTPUT=-1" in
  let n := strtol (list_ascii_of_string "-1") in
  (n < 8)%Z
  /\ exists l,
       events (handleConfigCmd env0 c) = events c ++ l
       /\ effects l
          = [ setOutput n (getOutput env0 (events c) n =? 0)%Z;
              sendMessage MSG_CONFIG_CHANGE ].
Proof.
  intros c n.
  assert (H8 : (n < 8)%Z) by (vm_compute; reflexivity).
  split; [exact H8|].
  apply (OUTPUT_below_8_toggles_that_output env0
           (list_ascii_of_string "OUTPUT") (list_ascii_of_string "-1") c).
  - repeat constructor; discriminate.
  - reflexivity.
  - discriminate.
  - reflexivity.
  - exact H8.
  - vm_compute. lia.
  - reflexivity.
Defined.

(** The value 1 written in hexadecimal. *)
Lemma NUKE_writes_only_when_the_value_is_1_witness :
  let c := holding "NUKE=0x1" in
  let v := list_ascii_of_string "0x1" in
  exists l,
    events (handleConfigCmd env0 c) = events c ++ l
    /\ effects l
       = (if (strtol v =? 1)%Z
          then flat_map
                 (fun j => [ memCache_Write
                               (EE_DEVICES_BASE env0 + EE_DEVICE_SIZE env0 * Z.of_nat j)%Z 0%Z;
                             memCache_FlushAllPages ])
                 (seq 0 64)
          else [])
         ++ [ sendMessage MSG_CONFIG_CHANGE ].
Proof.
  intros c v.
  apply (NUKE_writes_only_when_the_value_is_1 env0 (list_ascii_of_string "NUKE") v c).
  - repeat constructor; discriminate.
  - reflexivity.
  - discriminate.
  - reflexivity.
  - vm_compute. lia.
  - reflexivity.
Defined.

(** The key of the usage hint. *)
Lemma unknown_key_only_prints_witness :
  let c := holding "TORQ=3000" in
  events (handleConfigCmd env0 c) = events c ++ [ console "Unknown command" [] ]
  /\ effects (events (handleConfigCmd env0 c)) = effects (events c).
Proof.
  intros c.
  apply (unknown_key_only_prints env0
           (list_ascii_of_string "TORQ") (list_ascii_of_string "3000") c).
  - repeat constructor; discriminate.
  - intros [H|[H|[H|[H|[H|[H|[H|[H|[H|[]]]]]]]]]]; discriminate H.
  - discriminate.
  - reflexivity.
  - vm_compute. lia.
  - vm_compute. lia.
  - reflexivity.
Defined.

(** The command [z] of the menu. *)
Lemma other_short_commands_do_nothing_witness :
  let c := holding "z" in
  serialEvent env0 13 c = Some (set_ptrBuffer 0 c).
Proof.
  intros c.
  apply (other_short_commands_do_nothing env0 13 c).
  - right. reflexivity.
  - reflexivity.
  - reflexivity.
  - intros H. vm_compute in H. intuition discriminate.
Defined.

End ConsoleMore.
